(** * The agent handshake state machine of the Instana Python sensor

    A shallow embedding of [instana/fsm.py]: the [Discovery] record, the
    [Fsm] class with its fysom event table, the lookup and announce steps,
    the retry scheduler and the host/port resolution, followed by the
    properties the handshake is specified to have.

    Conventions of the embedding.
    - Mutable attributes of the [Fsm] object, of the agent object it shares
      with the rest of the sensor, the log and the set of started timers are
      fields of one record [Fsm] that is threaded through a state-and-error
      monad [M]; a Python exception is the [Raise] result, and the state
      reached when it was raised is kept, as it is in Python.
    - Everything the operating system or the agent answers during one
      synchronous run of a callback chain (environment variables, files
      under /proc, the HTTP collaborator) is read from a [World] record.
    - Strings are byte strings; Python's [int] and [re] are modelled on
      their ASCII fragment. *)

From Stdlib Require Import ZArith String Ascii List Bool Lia.
From stdpp Require Import base strings gmap list.
Local Open Scope Z_scope.
Local Open Scope string_scope.

(** ** Python values and builtins *)

Inductive PyVal : Type :=
  | PyNone
  | PyInt (z : Z)
  | PyStr (s : string)
  | PyList (l : list string).

#[global] Instance PyVal_eq_dec : EqDecision PyVal.
Proof. solve_decision. Defined.

Inductive exn : Type :=
  | ValueError
  | IndexError
  | OSError
  | FysomError (event : string).

Inductive result (A : Type) : Type :=
  | Ok (a : A)
  | Raise (e : exn).
Arguments Ok {A} a.
Arguments Raise {A} e.

Definition is_ok {A} (r : result A) : bool :=
  match r with Ok _ => true | Raise _ => false end.

(** The characters [int] strips: space, \t, \n, \v, \f, \r. *)
Definition is_space (c : ascii) : bool :=
  let n := nat_of_ascii c in
  (Nat.eqb n 32 || (Nat.leb 9 n && Nat.leb n 13))%bool.

Definition digit_of (c : ascii) : option Z :=
  let n := nat_of_ascii c in
  if (Nat.leb 48 n && Nat.leb n 57)%bool then Some (Z.of_nat n - 48) else None.

Fixpoint lstrip (l : list ascii) : list ascii :=
  match l with
  | c :: l' => if is_space c then lstrip l' else l
  | [] => []
  end.

Definition strip (l : list ascii) : list ascii :=
  rev (lstrip (rev (lstrip l))).

(** Digits after the first one; a single underscore may separate two
    digits ([prev_us] records that the previous character was one). *)
Fixpoint int_digits (acc : Z) (prev_us : bool) (l : list ascii) : option Z :=
  match l with
  | [] => if prev_us then None else Some acc
  | c :: l' =>
      if Ascii.eqb c "_"%char
      then (if prev_us then None else int_digits acc true l')
      else match digit_of c with
           | Some d => int_digits (10 * acc + d) false l'
           | None => None
           end
  end.

Definition int_unsigned (l : list ascii) : option Z :=
  match l with
  | c :: l' => match digit_of c with
               | Some d => int_digits d false l'
               | None => None
               end
  | [] => None
  end.

(** [int(s)] for a string, base 10: [None] stands for [ValueError]. *)
Definition py_int (s : string) : option Z :=
  match strip (list_ascii_of_string s) with
  | c :: l' =>
      if Ascii.eqb c "-"%char then Z.opp <$> int_unsigned l'
      else if Ascii.eqb c "+"%char then int_unsigned l'
      else int_unsigned (c :: l')
  | [] => None
  end.

(** [s.split(sep)] for a one-character separator. The accumulator holds the
    characters of the current piece, last first. *)
Fixpoint split_acc (sep : ascii) (cur : list ascii) (l : list ascii) : list string :=
  match l with
  | [] => [string_of_list_ascii (rev cur)]
  | c :: l' =>
      if Ascii.eqb c sep
      then string_of_list_ascii (rev cur) :: split_acc sep [] l'
      else split_acc sep (c :: cur) l'
  end.

Definition py_split (sep : ascii) (s : string) : list string :=
  split_acc sep [] (list_ascii_of_string s).

(** [re.search(r'\((\d+),', line)] followed by [int] of the group: the
    leftmost opening parenthesis that is followed by one or more digits and
    a comma. [None] when there is no match. *)
Fixpoint digits_then_comma (acc : option Z) (l : list ascii) : option Z :=
  match l with
  | [] => None
  | c :: l' =>
      match digit_of c with
      | Some d => digits_then_comma (Some (10 * default 0 acc + d)) l'
      | None => if Ascii.eqb c ","%char then acc else None
      end
  end.

Fixpoint re_search_pid (l : list ascii) : option Z :=
  match l with
  | [] => None
  | c :: l' =>
      if Ascii.eqb c "("%char
      then match digits_then_comma None l' with
           | Some n => Some n
           | None => re_search_pid l'
           end
      else re_search_pid l'
  end.

(** Truth value of a response body: [None] and the empty body are false. *)
Definition truthy (b : option string) : bool :=
  match b with
  | Some s => negb (bool_decide (s = ""))
  | None => false
  end.

(** ** Discovery *)

(** An instance is its [__dict__]; attribute reads fall back to the class
    attributes, as Python's attribute lookup does. *)
Abbreviation Discovery := (gmap string PyVal).

Definition Discovery_class : gmap string PyVal :=
  <["pid" := PyInt 0]> (<["name" := PyNone]> (<["args" := PyNone]>
  (<["fd" := PyInt (-1)]> (<["inode" := PyStr ""]> ∅)))).

Definition Discovery_init (kwds : gmap string PyVal) : Discovery :=
  kwds ∪ (∅ : gmap string PyVal).

Definition getattr (self : Discovery) (k : string) : PyVal :=
  match self !! k with
  | Some v => v
  | None => default PyNone (Discovery_class !! k)
  end.

Definition setattr (self : Discovery) (k : string) (v : PyVal) : Discovery :=
  <[k := v]> self.

Definition to_dict (self : Discovery) : gmap string PyVal :=
  let kvs : gmap string PyVal := ∅ in
  let kvs := <["pid" := getattr self "pid"]> kvs in
  let kvs := <["name" := getattr self "name"]> kvs in
  let kvs := <["args" := getattr self "args"]> kvs in
  let kvs := <["fd" := getattr self "fd"]> kvs in
  let kvs := <["inode" := getattr self "inode"]> kvs in
  kvs.

(** ** The state of the machine and of its collaborators *)

(** fysom starts in state [none] when no initial state is configured. *)
Inductive FState : Type := none | found | announced | good2go.

#[global] Instance FState_eq_dec : EqDecision FState.
Proof. solve_decision. Defined.

(** The event object fysom hands to callbacks. *)
Record Event : Type := mkEvent {
  event : string;
  src : FState;
  dst : FState }.

(** What a timer calls when it fires. *)
Inductive Target : Type :=
  | fsm_lookup_target
  | lookup_agent_host_target (e : Event)
  | announce_sensor_target (e : Event).

Record Timer : Type := mkTimer {
  interval : Z;
  target : Target;
  daemon : bool;
  name : string }.

Inductive Level : Type := DEBUG | INFO | WARN | ERROR.

#[global] Instance Level_eq_dec : EqDecision Level.
Proof. solve_decision. Defined.

(** The agent-connection object shared with the rest of the sensor.
    [meter_runs] lists, for every call of [agent.sensor.meter.run], the
    state the machine was in when the call was made. *)
Record Agent : Type := mkAgent {
  host : option string;
  port : option Z;
  from_ : option string;
  meter_runs : list FState }.

Record Options : Type := mkOptions {
  agent_host : string;
  agent_port : Z }.

Record Fsm : Type := mkFsm {
  agent : Agent;
  current : FState;
  timer : option Timer;
  warnedPeriodic : bool;
  (* timers that were started and have not fired yet *)
  started : list Timer;
  (* lines handed to the logger, oldest first *)
  log : list (Level * string);
  (* state changes reported to onchangestate, oldest first *)
  changes : list Event;
  (* discovery objects handed to agent.request_response, oldest first *)
  sent : list Discovery }.

Record World : Type := mkWorld {
  os_environ : gmap string string;
  options : Options;
  (* os.path.exists("/proc/") *)
  proc_exists : bool;
  (* the Server header agent.request_header returns for a host *)
  request_header : string -> option string;
  (* output of the routing-table pipeline; None when Popen raises *)
  ip_route : option string;
  os_getpid : Z;
  (* /proc/self/cmdline: None when it is no file, Some None when reading
     it raises *)
  proc_self_cmdline : option (option string);
  (* stdout of ps; None when running it raises *)
  ps_output : option string;
  sys_argv : list string;
  (* first line of /proc/<pid>/sched, same convention as the cmdline *)
  sched_line : option (option string);
  (* connect to port 42699: None when it raises, else the descriptor and
     the link read from /proc/<pid>/fd/<fd> (None when readlink raises) *)
  socket_connect : option (Z * option string);
  (* body agent.request_response returns for a discovery object *)
  request_response : Discovery -> option string }.

(** ** The state-and-error monad *)

Definition M (A : Type) : Type := Fsm -> Fsm * result A.

Definition ret {A} (a : A) : M A := fun s => (s, Ok a).

Definition raise {A} (e : exn) : M A := fun s => (s, Raise e).

Definition bind {A B} (m : M A) (f : A -> M B) : M B :=
  fun s => match m s with
           | (s', Ok a) => f a s'
           | (s', Raise e) => (s', Raise e)
           end.

Definition modify (f : Fsm -> Fsm) : M unit := fun s => (f s, Ok tt).

Definition gets {A} (f : Fsm -> A) : M A := fun s => (s, Ok (f s)).

Notation "'do!' x <- m ; k" := (bind m (fun x => k))
  (at level 10, x name, m at level 100, k at level 200,
   format "'[v' 'do!'  x  <-  m ; '/' k ']'").
Notation "'run!' m ; k" := (bind m (fun _ => k))
  (at level 10, m at level 100, k at level 200,
   format "'[v' 'run!'  m ; '/' k ']'").

(** ** Attribute updates *)

Definition set_agent_host_port (h : string) (p : Z) (s : Fsm) : Fsm :=
  mkFsm (mkAgent (Some h) (Some p) (from_ (agent s)) (meter_runs (agent s)))
        (current s) (timer s) (warnedPeriodic s) (started s) (log s)
        (changes s) (sent s).

Definition set_from (b : string) (s : Fsm) : Fsm :=
  mkFsm (mkAgent (host (agent s)) (port (agent s)) (Some b) (meter_runs (agent s)))
        (current s) (timer s) (warnedPeriodic s) (started s) (log s)
        (changes s) (sent s).

Definition meter_run (s : Fsm) : Fsm :=
  mkFsm (mkAgent (host (agent s)) (port (agent s)) (from_ (agent s))
                 (meter_runs (agent s) ++ [current s]))
        (current s) (timer s) (warnedPeriodic s) (started s) (log s)
        (changes s) (sent s).

Definition set_current (st : FState) (s : Fsm) : Fsm :=
  mkFsm (agent s) st (timer s) (warnedPeriodic s) (started s) (log s)
        (changes s) (sent s).

Definition set_warnedPeriodic (b : bool) (s : Fsm) : Fsm :=
  mkFsm (agent s) (current s) (timer s) b (started s) (log s)
        (changes s) (sent s).

Definition timer_start (t : Timer) (s : Fsm) : Fsm :=
  mkFsm (agent s) (current s) (Some t) (warnedPeriodic s) (started s ++ [t])
        (log s) (changes s) (sent s).

Definition add_log (l : Level) (msg : string) (s : Fsm) : Fsm :=
  mkFsm (agent s) (current s) (timer s) (warnedPeriodic s) (started s)
        (log s ++ [(l, msg)]) (changes s) (sent s).

Definition add_change (e : Event) (s : Fsm) : Fsm :=
  mkFsm (agent s) (current s) (timer s) (warnedPeriodic s) (started s)
        (log s) (changes s ++ [e]) (sent s).

Definition add_sent (d : Discovery) (s : Fsm) : Fsm :=
  mkFsm (agent s) (current s) (timer s) (warnedPeriodic s) (started s)
        (log s) (changes s) (sent s ++ [d]).

Definition set_started (l : list Timer) (s : Fsm) : Fsm :=
  mkFsm (agent s) (current s) (timer s) (warnedPeriodic s) l
        (log s) (changes s) (sent s).

Definition logger (l : Level) (msg : string) : M unit := modify (add_log l msg).

Definition lift {A} (r : result A) : M A := fun s => (s, r).

(** ** fysom *)

(** The rows of the event table: event name, source state ([None] is the
    wildcard ["*"]) and destination state. *)
Definition events : list (string * option FState * FState) :=
  [ ("lookup",   None,           found);
    ("announce", Some found,     announced);
    ("ready",    Some announced, good2go) ].

Fixpoint map_lookup (rows : list (string * option FState * FState))
    (ev : string) (s : option FState) : option FState :=
  match rows with
  | [] => None
  | (n, s', d) :: rows' =>
      if (bool_decide (n = ev) && bool_decide (s' = s))%bool then Some d
      else map_lookup rows' ev s
  end.

(** The destination of an event in a state: the row for that state, else
    the wildcard row; [None] when the event cannot fire. *)
Definition fysom_dst (ev : string) (cur : FState) : option FState :=
  match map_lookup events ev (Some cur) with
  | Some d => Some d
  | None => map_lookup events ev None
  end.

Definition RETRY_PERIOD : Z := 30.

Definition printstatechange (e : Event) : M unit :=
  run! modify (add_change e);
  logger DEBUG "FSM event".

(** Firing an event, as fysom (a library the sensor depends on) does it.
    An event that has no row for the current state raises. [after] is the
    callback registered as [on<event>], fysom's short name for
    [onafter<event>]: it runs once the state has changed and
    [onchangestate] has been told, which is why [lookup_agent_host] can fire
    the announce event and [announce_sensor] the ready event. An event that
    leads to the current state changes nothing and runs the callback all the
    same; none of the properties below rests on that case.
    No other callback (before, leave, enter, reenter) is registered, and
    callbacks run on the caller's thread, one event at a time. *)
Definition fysom_event {A} (ev : string) (after : Event -> M A) : M unit :=
  do! cur <- gets current;
  match fysom_dst ev cur with
  | None => raise (FysomError ev)
  | Some d =>
      let e := mkEvent ev cur d in
      if bool_decide (cur = d)
      then (run! after e; ret tt)
      else (run! modify (set_current d);
            run! printstatechange e;
            run! after e;
            ret tt)
  end.

(** ** Observations on a state *)

Definition rank (st : FState) : nat :=
  match st with none => 0 | found => 1 | announced => 2 | good2go => 3 end.

Definition NOT_FOUND_WARNING : Level * string :=
  (WARN, "Instana Host Agent couldn't be found. Will retry periodically...").

(** How many times the warning about the missing agent was logged. *)
Definition not_found_warnings (s : Fsm) : nat :=
  length (List.filter (fun x => bool_decide (x = NOT_FOUND_WARNING)) (log s)).

(** The latch and the log agree. *)
Definition warn_inv (s : Fsm) : Prop :=
  not_found_warnings s = if warnedPeriodic s then 1%nat else 0%nat.

(** Every call of the telemetry start was made in the terminal state. *)
Definition runs_ready (s : Fsm) : Prop :=
  Forall (fun st => st = good2go) (meter_runs (agent s)).

(** The telemetry start was called once if the machine is in the terminal
    state and not at all otherwise. *)
Definition runs_once (s : Fsm) : Prop :=
  length (meter_runs (agent s)) =
  if bool_decide (current s = good2go) then 1%nat else 0%nat.

Definition forward (e : Event) : Prop := (rank (src e) < rank (dst e))%nat.

Definition forward_changes (s : Fsm) : Prop := Forall forward (changes s).

Definition is_retry (t : Timer) : Prop := target t <> fsm_lookup_target.

Definition only_retries (s : Fsm) : Prop := Forall is_retry (started s).

Definition retry (fn : Target) (nm : string) : Timer :=
  mkTimer RETRY_PERIOD fn true nm.

(** The keys of the record [to_dict] builds. *)
Definition Discovery_keys : gset string :=
  {[ "pid"; "name"; "args"; "fd"; "inode" ]}.

(** ** Fsm *)

(** The constants of [instana/agent_const.py], which the machine takes as
    given. *)
Class AgentConst : Type := {
  AGENT_HEADER : string;
  AGENT_DEFAULT_HOST : string;
  AGENT_DEFAULT_PORT : Z }.

Section Handshake.

Context {agent_const : AgentConst}.

Definition start_metric_reporting (e : Event) : M unit :=
  modify meter_run.

Definition fsm_ready : M unit :=
  fysom_event "ready" start_metric_reporting.

Definition schedule_retry (fn : Target) (nm : string) : M unit :=
  run! logger DEBUG ("Scheduling: " ++ nm);
  modify (timer_start (mkTimer RETRY_PERIOD fn true nm)).

Definition __get_real_pid (w : World) : M Z :=
  do! pid <-
    (if proc_exists w then
       match sched_line w with
       | Some (Some line) =>
           match re_search_pid (list_ascii_of_string line) with
           | Some n => ret (Some n)
           | None => run! logger DEBUG "parsing sched file failed"; ret None
           end
       | Some None => run! logger DEBUG "parsing sched file failed"; ret None
       | None => ret None
       end
     else ret None);
  match pid with
  | Some n => ret n
  | None => ret (os_getpid w)
  end.

Definition __get_agent_host_port (w : World) : result (string * Z) :=
  let host := AGENT_DEFAULT_HOST in
  let port := AGENT_DEFAULT_PORT in
  match os_environ w !! "INSTANA_AGENT_HOST" with
  | Some host =>
      match os_environ w !! "INSTANA_AGENT_PORT" with
      | Some p => match py_int p with
                  | Some port => Ok (host, port)
                  | None => Raise ValueError
                  end
      | None => Ok (host, port)
      end
  | None =>
      match os_environ w !! "INSTANA_AGENT_IP" with
      | Some host =>
          match os_environ w !! "INSTANA_AGENT_PORT" with
          | Some p => match py_int p with
                      | Some port => Ok (host, port)
                      | None => Raise ValueError
                      end
          | None => Ok (host, port)
          end
      | None =>
          if negb (bool_decide (agent_host (options w) = ""))
          then
            let host := agent_host (options w) in
            if negb (bool_decide (agent_port (options w) = 0))
            then Ok (host, agent_port (options w))
            else Ok (host, port)
          else Ok (host, port)
      end
  end.

(** The command line of the process: the try block of [announce_sensor]
    with its handler. *)
Definition read_cmdline (w : World) : M (list string) :=
  let attempt : option (list string) :=
    match proc_self_cmdline w with
    | Some (Some cmdinfo) => Some (py_split "000"%char cmdinfo)
    | Some None => None
    | None =>
        match ps_output w with
        | Some out =>
            match py_split "010"%char out !! 1%nat with
            | Some line => Some [line]
            | None => None
            end
        | None => None
        end
    end in
  match attempt with
  | Some cmdline => ret cmdline
  | None => run! logger DEBUG "announce_sensor"; ret (sys_argv w)
  end.

(** The first half of [announce_sensor]: the discovery object of this
    attempt, up to the point where it is handed to the agent. The id
    [os.getpid()] returns goes into the path of the socket link and into a
    log line, and through [__get_real_pid] when the sched file is of no
    use; the object has no attribute for it. *)
Definition discovery (w : World) : M Discovery :=
  run! logger DEBUG "announcing sensor to the agent";
  do! cmdline <- read_cmdline w;
  do! real_pid <- __get_real_pid w;
  do! d <-
    match cmdline with
    | [] => raise IndexError
    | name :: args =>
        ret (Discovery_init (<["pid" := PyInt real_pid]>
                             (<["name" := PyStr name]>
                             (<["args" := PyList args]> ∅))))
    end;
  if proc_exists w then
    match socket_connect w with
    | None => raise OSError
    | Some (fileno, None) => raise OSError
    | Some (fileno, Some link) =>
        ret (setattr (setattr d "fd" (PyInt fileno)) "inode" (PyStr link))
    end
  else ret d.

Definition announce_sensor (w : World) (e : Event) : M bool :=
  do! d <- discovery w;
  run! modify (add_sent d);
  let b := request_response w d in
  if truthy b then
    run! modify (set_from (default "" b));
    run! fsm_ready;
    run! logger INFO "Host agent available. We're in business.";
    ret true
  else
    run! logger DEBUG "Cannot announce sensor. Scheduling retry.";
    run! schedule_retry (announce_sensor_target e) "announce";
    ret false.

Definition fsm_announce (w : World) : M unit :=
  fysom_event "announce" (announce_sensor w).

Definition get_default_gateway (w : World) : M (option string) :=
  run! logger DEBUG "checking default gateway";
  match ip_route w with
  | Some addr => ret (Some addr)
  | None => run! logger ERROR "Popen"; ret None
  end.

Definition check_host (w : World) (host : string) (port : Z) : M (option string) :=
  run! logger DEBUG "checking host";
  ret (request_header w host).

(** The one-time warning of [lookup_agent_host]. *)
Definition warn_once : M unit :=
  do! warned <- gets warnedPeriodic;
  if negb warned then
    run! logger WARN "Instana Host Agent couldn't be found. Will retry periodically...";
    modify (set_warnedPeriodic true)
  else ret tt.

(** [not_found] is the tail of the function, which every failing path
    reaches: the warning, the retry, [False]. *)
Definition lookup_agent_host (w : World) (e : Event) : M bool :=
  do! hp <- lift (__get_agent_host_port w);
  let '(host, port) := hp in
  do! h <- check_host w host port;
  let not_found : M bool :=
    run! warn_once;
    run! schedule_retry (lookup_agent_host_target e) "agent_lookup";
    ret false in
  if bool_decide (h = Some AGENT_HEADER) then
    run! modify (set_agent_host_port host port);
    run! fsm_announce w;
    ret true
  else if proc_exists w then
    do! gw <- get_default_gateway w;
    match gw with
    | Some host =>
        if negb (bool_decide (host = "")) then
          do! h <- check_host w host port;
          if bool_decide (h = Some AGENT_HEADER) then
            run! modify (set_agent_host_port host port);
            run! fsm_announce w;
            ret true
          else not_found
        else not_found
    | None => not_found
    end
  else not_found.

Definition fsm_lookup (w : World) : M unit :=
  fysom_event "lookup" (lookup_agent_host w).

Definition reset (w : World) : M unit := fsm_lookup w.

(** The object [Fsm(agent)] returns: the machine is in fysom's initial
    state and the startup timer is running. The timer is a local of
    [__init__]; the [timer] attribute keeps its class value. *)
Definition __init__ (ag : Agent) : Fsm :=
  mkFsm ag none None false
        [mkTimer 2 fsm_lookup_target true "Startup"]
        [(INFO, "Stan is on the scene.  Starting Instana instrumentation");
         (DEBUG, "initializing fsm")]
        [] [].

(** ** Executions *)

Inductive Action : Type :=
  | Fire (i : nat)   (* the i-th pending timer fires *)
  | Reset.           (* somebody calls reset() *)

Definition call (w : World) (t : Target) : M unit :=
  match t with
  | fsm_lookup_target => fsm_lookup w
  | lookup_agent_host_target e => run! lookup_agent_host w e; ret tt
  | announce_sensor_target e => run! announce_sensor w e; ret tt
  end.

(** One step of an execution, in the world it meets. A timer runs its
    target on a thread of its own, so an exception ends that thread and
    nothing else; an exception of [reset] goes to the caller. Either way
    the object keeps the state it reached. *)
Definition step (s : Fsm) (wa : World * Action) : Fsm :=
  let '(w, a) := wa in
  match a with
  | Fire i =>
      match started s !! i with
      | Some t => fst (call w (target t) (set_started (delete i (started s)) s))
      | None => s
      end
  | Reset => fst (reset w s)
  end.

Definition execute (tr : list (World * Action)) (s : Fsm) : Fsm :=
  fold_left step tr s.

Definition is_reset (a : Action) : bool :=
  match a with Reset => true | Fire _ => false end.

Definition no_reset (tr : list (World * Action)) : bool :=
  forallb (fun wa => negb (is_reset (snd wa))) tr.

(** ** The specification's reading of the resolvers *)

(** The four sources of a host, in the order the specification lists
    them. *)
Inductive Source : Type := PrimaryEnv | AliasEnv | Config | Builtin.

Definition precedence : list Source := [PrimaryEnv; AliasEnv; Config; Builtin].

(** The host a source supplies, if it supplies one. *)
Definition supplies (w : World) (src : Source) : option string :=
  match src with
  | PrimaryEnv => os_environ w !! "INSTANA_AGENT_HOST"
  | AliasEnv => os_environ w !! "INSTANA_AGENT_IP"
  | Config =>
      if bool_decide (agent_host (options w) = "") then None
      else Some (agent_host (options w))
  | Builtin => Some AGENT_DEFAULT_HOST
  end.

(** The port that goes with the host of a source. The port variable is a
    string and is converted with [int]. *)
Definition paired_port (w : World) (src : Source) : result Z :=
  match src with
  | PrimaryEnv | AliasEnv =>
      match os_environ w !! "INSTANA_AGENT_PORT" with
      | Some p => match py_int p with
                  | Some n => Ok n
                  | None => Raise ValueError
                  end
      | None => Ok AGENT_DEFAULT_PORT
      end
  | Config =>
      if bool_decide (agent_port (options w) = 0) then Ok AGENT_DEFAULT_PORT
      else Ok (agent_port (options w))
  | Builtin => Ok AGENT_DEFAULT_PORT
  end.

Fixpoint first_match (w : World) (srcs : list Source) : option (Source * string) :=
  match srcs with
  | [] => None
  | src :: srcs' =>
      match supplies w src with
      | Some h => Some (src, h)
      | None => first_match w srcs'
      end
  end.

Definition resolveEndpoint (w : World) : result (string * Z) :=
  match first_match w precedence with
  | Some (src, h) =>
      match paired_port w src with
      | Ok p => Ok (h, p)
      | Raise e => Raise e
      end
  | None => Ok (AGENT_DEFAULT_HOST, AGENT_DEFAULT_PORT)
  end.

(** Two worlds that a resolution stopping at [src] cannot tell apart:
    they agree on every source up to [src] and on the port paired with
    it. *)
Definition same_up_to (src : Source) (w w' : World) : Prop :=
  paired_port w' src = paired_port w src /\
  match src with
  | PrimaryEnv => supplies w' PrimaryEnv = supplies w PrimaryEnv
  | AliasEnv =>
      supplies w' PrimaryEnv = supplies w PrimaryEnv /\
      supplies w' AliasEnv = supplies w AliasEnv
  | Config | Builtin =>
      supplies w' PrimaryEnv = supplies w PrimaryEnv /\
      supplies w' AliasEnv = supplies w AliasEnv /\
      supplies w' Config = supplies w Config
  end.

(** The process id as the kernel sees it (4.6 of the specification). *)
Definition resolveKernelPid (w : World) : Z :=
  if proc_exists w then
    match sched_line w with
    | Some (Some line) =>
        default (os_getpid w) (re_search_pid (list_ascii_of_string line))
    | _ => os_getpid w
    end
  else os_getpid w.

Definition resolveCommandLine (w : World) : list string :=
  match proc_self_cmdline w with
  | Some (Some cmdinfo) => py_split "000"%char cmdinfo
  | Some None => sys_argv w
  | None =>
      match ps_output w with
      | Some out => default (sys_argv w) ((fun x => [x]) <$> py_split "010"%char out !! 1%nat)
      | None => sys_argv w
      end
  end.

(** [keeps R m]: running [m] relates the state before to the state after,
    whether [m] returns or raises. *)
Definition keeps {A} (R : Fsm -> Fsm -> Prop) (m : M A) : Prop :=
  forall s, R s (fst (m s)).

(** What every step preserves, the lookup event included. *)
Definition R_all (s s' : Fsm) : Prop :=
  (warn_inv s -> warn_inv s') /\
  (runs_ready s -> runs_ready s') /\
  (warnedPeriodic s = true -> warnedPeriodic s' = true).

(** What the lookup and announce steps preserve. *)
Definition R_fwd (s s' : Fsm) : Prop :=
  (rank (current s) <= rank (current s'))%nat /\
  (runs_once s -> runs_once s') /\
  (forward_changes s -> forward_changes s') /\
  (only_retries s -> only_retries s').

(** The endpoint recorded on the agent object is left alone. *)
Definition R_endpoint (s s' : Fsm) : Prop :=
  host (agent s') = host (agent s) /\ port (agent s') = port (agent s).

(** Nothing but the log differs. *)
Definition R_log_only (s s' : Fsm) : Prop :=
  agent s' = agent s /\ current s' = current s /\ timer s' = timer s /\
  warnedPeriodic s' = warnedPeriodic s /\ started s' = started s /\
  changes s' = changes s /\ sent s' = sent s.

(** The machine has not left its initial state and only the startup
    timer is pending, or it has left it and only retries are pending. *)
Definition startup_inv (s : Fsm) : Prop :=
  (current s = none /\ started s = [mkTimer 2 fsm_lookup_target true "Startup"]) \/
  (current s <> none /\ only_retries s).

End Handshake.

(** ** Sample worlds *)

(** The values the constants have in the examples. *)
Definition example_const : AgentConst :=
  {| AGENT_HEADER := "Instana Agent";
     AGENT_DEFAULT_HOST := "localhost";
     AGENT_DEFAULT_PORT := 42699 |}.

Definition fresh_agent : Agent := mkAgent None None None [].

Definition no_options : Options := mkOptions "" 0.

(** No agent answers and the host has no /proc. *)
Definition w_no_agent : World :=
  mkWorld ∅ no_options false (fun _ => None) None 7 None None
          ["python"; "app.py"] None None (fun _ => None).

(** The agent answers the probe but not the announce. *)
Definition w_agent_silent : World :=
  mkWorld ∅ no_options false (fun _ => Some "Instana Agent") None 7 None None
          ["python"; "app.py"] None None (fun _ => None).

(** The agent answers the probe and the announce. *)
Definition w_agent_up : World :=
  mkWorld ∅ no_options false (fun _ => Some "Instana Agent") None 7 None None
          ["python"; "app.py"] None None (fun _ => Some "{pid: 1}").

(** The host comes from the environment, the port variable is unset, and
    the agent answers on that host only. *)
Definition w_env_host : World :=
  mkWorld (<["INSTANA_AGENT_HOST" := "10.0.0.5"]> ∅) (mkOptions "configured" 1)
          false
          (fun h => if bool_decide (h = "10.0.0.5") then Some "Instana Agent" else None)
          None 7 None None ["python"; "app.py"] None None (fun _ => None).

(** The port variable holds no number. *)
Definition w_bad_port : World :=
  mkWorld (<["INSTANA_AGENT_HOST" := "10.0.0.5"]>
           (<["INSTANA_AGENT_PORT" := "abc"]> ∅))
          no_options false (fun _ => None) None 7 None None
          ["python"; "app.py"] None None (fun _ => None).

(** The port variable holds a number. *)
Definition w_good_port : World :=
  mkWorld (<["INSTANA_AGENT_IP" := "10.0.0.6"]>
           (<["INSTANA_AGENT_PORT" := "4711"]> ∅))
          no_options false (fun _ => None) None 7 None None
          ["python"; "app.py"] None None (fun _ => None).

(** A process in a pid namespace on a host with /proc: it sees itself as
    process 7, the kernel knows it as 12345. *)
Definition w_namespaced : World :=
  mkWorld ∅ no_options true (fun _ => Some "Instana Agent") None 7
          (Some (Some ("python" ++ String "000"%char "app.py"))) None
          ["python"; "app.py"]
          (Some (Some "python (12345, #threads: 1)"))
          (Some (3, Some "socket:[4711]")) (fun _ => Some "{pid: 1}").

(** The world [w_env_host] with the later sources changed: another alias
    and another configuration. *)
Definition w_env_host_later : World :=
  mkWorld (<["INSTANA_AGENT_HOST" := "10.0.0.5"]>
           (<["INSTANA_AGENT_IP" := "10.9.9.9"]> ∅)) (mkOptions "elsewhere" 2)
          false (fun _ => None) None 7 None None ["python"; "app.py"] None None
          (fun _ => None).

Definition d_namespaced : Discovery :=
  setattr (setattr (Discovery_init (<["pid" := PyInt 12345]>
                                    (<["name" := PyStr "python"]>
                                    (<["args" := PyList ["app.py"]]> ∅))))
                   "fd" (PyInt 3))
          "inode" (PyStr "socket:[4711]").

Definition d_plain : Discovery :=
  Discovery_init (<["pid" := PyInt 7]>
                  (<["name" := PyStr "python"]>
                  (<["args" := PyList ["app.py"]]> ∅))).

Definition e_lookup : Event := mkEvent "lookup" none found.

Definition e_announce : Event := mkEvent "announce" found announced.

(** The machine after its startup timer has fired in each of these worlds. *)
Definition s_no_agent : Fsm :=
  execute (agent_const := example_const) [(w_no_agent, Fire 0)] (__init__ fresh_agent).

Definition s_agent_silent : Fsm :=
  execute (agent_const := example_const) [(w_agent_silent, Fire 0)] (__init__ fresh_agent).

Definition s_agent_up : Fsm :=
  execute (agent_const := example_const) [(w_agent_up, Fire 0)] (__init__ fresh_agent).

Definition s_env_host : Fsm :=
  execute (agent_const := example_const) [(w_env_host, Fire 0)] (__init__ fresh_agent).

(** The machine after a handshake and a [reset] with the agent still up. *)
Definition s_agent_up_reset : Fsm :=
  execute (agent_const := example_const)
          [(w_agent_up, Fire 0); (w_agent_up, Reset)] (__init__ fresh_agent).

(** The machine after a handshake and a [reset] that finds no agent. *)
Definition s_agent_gone : Fsm :=
  execute (agent_const := example_const)
          [(w_agent_up, Fire 0); (w_no_agent, Reset)] (__init__ fresh_agent).

(** A container on a host with /proc: nothing answers on the resolved
    host, the routing table names the gateway 192.168.1.1, and the agent
    answers there, the probe only. *)
Definition w_gateway : World :=
  mkWorld ∅ no_options true
          (fun h => if bool_decide (h = "192.168.1.1") then Some "Instana Agent" else None)
          (Some "192.168.1.1") 7
          (Some (Some ("python" ++ String "000"%char ("app.py" ++ String "000"%char ""))))
          None ["python"; "app.py"]
          (Some (Some "python (12345, #threads: 1)"))
          (Some (3, Some "socket:[4711]")) (fun _ => None).

(** A host with /proc where the agent answers the probe but nothing
    listens on port 42699. *)
Definition w_socket_refused : World :=
  mkWorld ∅ no_options true (fun _ => Some "Instana Agent") None 7
          (Some (Some ("python" ++ String "000"%char ("app.py" ++ String "000"%char ""))))
          None ["python"; "app.py"]
          (Some (Some "python (12345, #threads: 1)"))
          None (fun _ => Some "{pid: 1}").

(** Only the port variable is set, to no number, and only a port is
    configured. *)
Definition w_port_only : World :=
  mkWorld (<["INSTANA_AGENT_PORT" := "abc"]> ∅) (mkOptions "" 4711)
          false (fun _ => None) None 7 None None ["python"; "app.py"] None None
          (fun _ => None).

(** ** Further observations *)

Definition e_ready : Event := mkEvent "ready" announced good2go.

(** The two ways a lookup ends once the probes are done. *)
Definition found_path `{AgentConst} (w : World) (h : string) (p : Z) : M bool :=
  run! modify (set_agent_host_port h p); run! fsm_announce w; ret true.

Definition not_found_path (e : Event) : M bool :=
  run! warn_once;
  run! schedule_retry (lookup_agent_host_target e) "agent_lookup";
  ret false.

(** The state after [get_default_gateway]. *)
Definition gateway_logged (w : World) (s : Fsm) : Fsm :=
  match ip_route w with
  | Some _ => add_log DEBUG "checking default gateway" s
  | None => add_log ERROR "Popen" (add_log DEBUG "checking default gateway" s)
  end.

(** What a timer of the machine looks like: a daemon, named after what it
    calls, with the period of its kind and the event object of the event
    that led to the step it retries. *)
Definition well_formed_timer (t : Timer) : Prop :=
  daemon t = true /\
  match target t with
  | fsm_lookup_target => name t = "Startup" /\ interval t = 2
  | lookup_agent_host_target e =>
      name t = "agent_lookup" /\ interval t = RETRY_PERIOD /\
      event e = "lookup" /\ dst e = found
  | announce_sensor_target e =>
      name t = "announce" /\ interval t = RETRY_PERIOD /\ e = e_announce
  end.

(** The event object a target was given is one fysom makes. *)
Definition target_ok (t : Target) : Prop :=
  match t with
  | fsm_lookup_target => True
  | lookup_agent_host_target e => event e = "lookup" /\ dst e = found
  | announce_sensor_target e => e = e_announce
  end.

(** The agent object holds what the state of the machine promises: an
    endpoint from [announced] on, the agent's answer in [good2go]. *)
Definition agent_ready (s : Fsm) : Prop :=
  ((2 <= rank (current s))%nat ->
   is_Some (host (agent s)) /\ is_Some (port (agent s))) /\
  (current s = good2go -> is_Some (from_ (agent s))).

(** Where a list of reported state changes leads from a state, if each
    change starts where the one before ended and is a row of the event
    table. *)
Fixpoint follow (st : FState) (l : list Event) : option FState :=
  match l with
  | [] => Some st
  | e :: l' =>
      if (bool_decide (src e = st) &&
          bool_decide (fysom_dst (event e) (src e) = Some (dst e)))%bool
      then follow (dst e) l'
      else None
  end.

Definition changes_lead_here (s : Fsm) : Prop :=
  follow none (changes s) = Some (current s).

(** The value of a string of decimal digits, most significant first. *)
Definition digits_value (ds : list nat) : Z :=
  fold_left (fun acc d => 10 * acc + Z.of_nat d) ds 0.

Definition digit_char (d : nat) : ascii := ascii_of_nat (48 + d).

(** [sep.join(l)] with [sep] after every element, the layout of
    /proc/<pid>/cmdline. *)
Fixpoint terminated (sep : ascii) (l : list (list ascii)) : list ascii :=
  match l with
  | [] => []
  | a :: l' => (a ++ sep :: terminated sep l')%list
  end.

Section HandshakeProperties.

Context {agent_const : AgentConst}.

(** ** Reasoning about the monad *)

(** Firing an event, state by state. *)
Lemma fysom_event_eq {A} (ev : string) (after : Event -> M A) (s : Fsm) :
  fysom_event ev after s =
  match fysom_dst ev (current s) with
  | None => (s, Raise (FysomError ev))
  | Some d =>
      let e := mkEvent ev (current s) d in
      if bool_decide (current s = d)
      then (run! after e; ret tt) s
      else (run! after e; ret tt)
             (add_log DEBUG "FSM event" (add_change e (set_current d s)))
  end.
Proof.
  unfold fysom_event. unfold bind at 1. simpl.
  destruct (fysom_dst ev (current s)) as [d|]; [|reflexivity].
  simpl. destruct (bool_decide (current s = d)); reflexivity.
Qed.

Lemma fysom_dst_lookup (c : FState) : fysom_dst "lookup" c = Some found.
Proof. destruct c; reflexivity. Qed.

Lemma fysom_dst_announce (c : FState) :
  fysom_dst "announce" c = if bool_decide (c = found) then Some announced else None.
Proof. destruct c; reflexivity. Qed.

Lemma fysom_dst_ready (c : FState) :
  fysom_dst "ready" c = if bool_decide (c = announced) then Some good2go else None.
Proof. destruct c; reflexivity. Qed.

Section Keeps.

Variable R : Fsm -> Fsm -> Prop.
Hypothesis R_refl : forall s, R s s.
Hypothesis R_trans : forall a b c, R a b -> R b c -> R a c.

Lemma keeps_ret {A} (a : A) : keeps R (ret a).
Proof. intros s. apply R_refl. Qed.

Lemma keeps_raise {A} (e : exn) : keeps R (@raise A e).
Proof. intros s. apply R_refl. Qed.

Lemma keeps_lift {A} (r : result A) : keeps R (lift r).
Proof. intros s. apply R_refl. Qed.

Lemma keeps_gets {A} (f : Fsm -> A) : keeps R (gets f).
Proof. intros s. apply R_refl. Qed.

Lemma keeps_modify (f : Fsm -> Fsm) :
  (forall s, R s (f s)) -> keeps R (modify f).
Proof. intros H s. apply H. Qed.

Lemma keeps_bind {A B} (m : M A) (f : A -> M B) :
  keeps R m -> (forall a, keeps R (f a)) -> keeps R (bind m f).
Proof.
  intros Hm Hf s. unfold bind.
  specialize (Hm s). destruct (m s) as [s' [a|e]]; simpl in *.
  - eapply R_trans; [exact Hm | apply Hf].
  - exact Hm.
Qed.

Lemma keeps_drop {A} (m : M A) : keeps R m -> keeps R (run! m; ret tt).
Proof. intros H. apply keeps_bind; [exact H | intros _; apply keeps_ret]. Qed.

(** What the steps do to the state, piece by piece. *)
Hypothesis R_log : forall l msg s, l <> WARN -> R s (add_log l msg s).
Hypothesis R_sent : forall d s, R s (add_sent d s).
Hypothesis R_from : forall b s, R s (set_from b s).
Hypothesis R_retry :
  forall fn nm s, fn <> fsm_lookup_target -> R s (timer_start (retry fn nm) s).
Hypothesis R_ready : keeps R fsm_ready.

Lemma keeps_logger l msg : l <> WARN -> keeps R (logger l msg).
Proof. intros H. apply keeps_modify. intros s. now apply R_log. Qed.

Lemma keeps_schedule_retry fn nm :
  fn <> fsm_lookup_target -> keeps R (schedule_retry fn nm).
Proof.
  intros H. unfold schedule_retry.
  apply keeps_bind; [by apply keeps_logger | intros _].
  apply keeps_modify. intros s. now apply R_retry.
Qed.

Lemma keeps_read_cmdline w : keeps R (read_cmdline w).
Proof.
  unfold read_cmdline.
  destruct (proc_self_cmdline w) as [[c|]|];
    [apply keeps_ret | | destruct (ps_output w) as [out|];
                          [destruct (py_split _ out !! 1%nat)|]];
    try apply keeps_ret;
    (apply keeps_bind; [by apply keeps_logger | intros _; apply keeps_ret]).
Qed.

Lemma keeps_get_real_pid w : keeps R (__get_real_pid w).
Proof.
  unfold __get_real_pid.
  apply keeps_bind.
  - destruct (proc_exists w); [|apply keeps_ret].
    destruct (sched_line w) as [[line|]|]; [| |apply keeps_ret].
    + destruct (re_search_pid _); [apply keeps_ret|].
      apply keeps_bind; [by apply keeps_logger | intros _; apply keeps_ret].
    + apply keeps_bind; [by apply keeps_logger | intros _; apply keeps_ret].
  - intros [n|]; apply keeps_ret.
Qed.

Lemma keeps_discovery w : keeps R (discovery w).
Proof.
  unfold discovery.
  apply keeps_bind; [by apply keeps_logger | intros _].
  apply keeps_bind; [apply keeps_read_cmdline | intros cmdline].
  apply keeps_bind; [apply keeps_get_real_pid | intros real_pid].
  apply keeps_bind.
  - destruct cmdline; [apply keeps_raise | apply keeps_ret].
  - intros d. destruct (proc_exists w); [|apply keeps_ret].
    destruct (socket_connect w) as [[fileno [link|]]|];
      [apply keeps_ret | apply keeps_raise | apply keeps_raise].
Qed.

Lemma keeps_announce_sensor w e : keeps R (announce_sensor w e).
Proof.
  unfold announce_sensor.
  apply keeps_bind; [apply keeps_discovery | intros d].
  apply keeps_bind; [apply keeps_modify, R_sent | intros _].
  destruct (truthy _).
  - apply keeps_bind; [apply keeps_modify, R_from | intros _].
    apply keeps_bind; [apply R_ready | intros _].
    apply keeps_bind; [by apply keeps_logger | intros _; apply keeps_ret].
  - apply keeps_bind; [by apply keeps_logger | intros _].
    apply keeps_bind; [now apply keeps_schedule_retry | intros _; apply keeps_ret].
Qed.

Hypothesis R_host_port : forall h p s, R s (set_agent_host_port h p s).
Hypothesis R_warn_once : keeps R warn_once.
Hypothesis R_announced :
  forall s, current s = found ->
    R s (add_change (mkEvent "announce" found announced) (set_current announced s)).

Lemma keeps_fsm_announce w : keeps R (fsm_announce w).
Proof.
  intros s. unfold fsm_announce. rewrite fysom_event_eq.
  destruct (current s) eqn:Hc; simpl; try apply R_refl.
  eapply R_trans; [|apply keeps_drop, keeps_announce_sensor].
  eapply R_trans; [apply (R_announced s Hc) | by apply R_log].
Qed.

Lemma keeps_check_host w h p : keeps R (check_host w h p).
Proof.
  unfold check_host.
  apply keeps_bind; [by apply keeps_logger | intros _; apply keeps_ret].
Qed.

Lemma keeps_get_default_gateway w : keeps R (get_default_gateway w).
Proof.
  unfold get_default_gateway.
  apply keeps_bind; [by apply keeps_logger | intros _].
  destruct (ip_route w); [apply keeps_ret|].
  apply keeps_bind; [by apply keeps_logger | intros _; apply keeps_ret].
Qed.

Lemma keeps_found_agent w h p :
  keeps R (run! modify (set_agent_host_port h p); run! fsm_announce w; ret true).
Proof.
  apply keeps_bind; [apply keeps_modify, R_host_port | intros _].
  apply keeps_bind; [apply keeps_fsm_announce | intros _; apply keeps_ret].
Qed.

Lemma keeps_not_found e :
  keeps R (run! warn_once;
           run! schedule_retry (lookup_agent_host_target e) "agent_lookup";
           ret false).
Proof.
  apply keeps_bind; [apply R_warn_once | intros _].
  apply keeps_bind; [now apply keeps_schedule_retry | intros _; apply keeps_ret].
Qed.

Lemma keeps_lookup_agent_host w e : keeps R (lookup_agent_host w e).
Proof.
  unfold lookup_agent_host.
  apply keeps_bind; [apply keeps_lift | intros [h p]].
  apply keeps_bind; [apply keeps_check_host | intros hd].
  destruct (bool_decide (hd = Some AGENT_HEADER)); [apply keeps_found_agent|].
  destruct (proc_exists w); [|apply keeps_not_found].
  apply keeps_bind; [apply keeps_get_default_gateway | intros [gw|]];
    [|apply keeps_not_found].
  destruct (negb _); [|apply keeps_not_found].
  apply keeps_bind; [apply keeps_check_host | intros hd'].
  destruct (bool_decide (hd' = Some AGENT_HEADER));
    [apply keeps_found_agent | apply keeps_not_found].
Qed.

(** The lookup event is the one transition that can lead backwards. *)
Hypothesis R_found :
  forall s, current s <> found ->
    R s (add_change (mkEvent "lookup" (current s) found) (set_current found s)).

Lemma keeps_fsm_lookup w : keeps R (fsm_lookup w).
Proof.
  intros s. unfold fsm_lookup. rewrite fysom_event_eq.
  rewrite fysom_dst_lookup. case_bool_decide as Hc.
  - apply keeps_drop, keeps_lookup_agent_host.
  - eapply R_trans; [|apply keeps_drop, keeps_lookup_agent_host].
    eapply R_trans; [apply (R_found s Hc) | by apply R_log].
Qed.

Lemma keeps_call w t : keeps R (call w t).
Proof.
  destruct t as [|e|e]; simpl.
  - apply keeps_fsm_lookup.
  - apply keeps_drop, keeps_lookup_agent_host.
  - apply keeps_drop, keeps_announce_sensor.
Qed.

End Keeps.

(** ** The relations the steps keep *)

Lemma warnings_add_log l msg s :
  l <> WARN -> not_found_warnings (add_log l msg s) = not_found_warnings s.
Proof.
  intros Hl. unfold not_found_warnings. simpl.
  rewrite List.filter_app, length_app. simpl.
  rewrite bool_decide_eq_false_2; [simpl; lia|].
  unfold NOT_FOUND_WARNING. intros H. apply Hl. congruence.
Qed.

Lemma fsm_ready_eq s :
  fsm_ready s =
  if bool_decide (current s = announced)
  then (meter_run (add_log DEBUG "FSM event"
          (add_change (mkEvent "ready" announced good2go)
             (set_current good2go s))), Ok tt)
  else (s, Raise (FysomError "ready")).
Proof.
  unfold fsm_ready. rewrite fysom_event_eq, fysom_dst_ready.
  destruct (current s); reflexivity.
Qed.

Lemma warn_once_eq s :
  warn_once s =
  if warnedPeriodic s then (s, Ok tt)
  else (set_warnedPeriodic true
          (add_log WARN "Instana Host Agent couldn't be found. Will retry periodically..." s),
        Ok tt).
Proof. unfold warn_once, bind, gets. simpl. destruct (warnedPeriodic s); reflexivity. Qed.

Ltac unfold_obs :=
  unfold R_all, R_fwd, R_endpoint, R_log_only, warn_inv, runs_ready, runs_once,
    forward_changes, only_retries in *.

(** [R_log_only] *)

Lemma R_log_only_refl s : R_log_only s s.
Proof. unfold_obs. tauto. Qed.

Lemma R_log_only_trans a b c : R_log_only a b -> R_log_only b c -> R_log_only a c.
Proof. unfold_obs. intuition congruence. Qed.

Lemma R_log_only_log l msg s : l <> WARN -> R_log_only s (add_log l msg s).
Proof. unfold_obs. simpl. tauto. Qed.

(** [R_endpoint] *)

Lemma R_endpoint_refl s : R_endpoint s s.
Proof. unfold_obs. tauto. Qed.

Lemma R_endpoint_trans a b c : R_endpoint a b -> R_endpoint b c -> R_endpoint a c.
Proof. unfold_obs. intuition congruence. Qed.

Lemma R_endpoint_ready : keeps R_endpoint fsm_ready.
Proof.
  intros s. rewrite fsm_ready_eq. case_bool_decide; unfold_obs; simpl; tauto.
Qed.

Lemma R_endpoint_announce_sensor w e : keeps R_endpoint (announce_sensor w e).
Proof.
  apply keeps_announce_sensor;
    first [ exact R_endpoint_refl | exact R_endpoint_trans
          | exact R_endpoint_ready | intros; unfold_obs; simpl; tauto ].
Qed.

(** [R_all] *)

Lemma R_all_refl s : R_all s s.
Proof. unfold_obs. tauto. Qed.

Lemma R_all_trans a b c : R_all a b -> R_all b c -> R_all a c.
Proof. unfold R_all. tauto. Qed.

Lemma R_all_log l msg s : l <> WARN -> R_all s (add_log l msg s).
Proof.
  intros Hl. unfold R_all, warn_inv, runs_ready.
  rewrite warnings_add_log by exact Hl. simpl. tauto.
Qed.

Lemma R_all_same_log s s' :
  log s' = log s -> warnedPeriodic s' = warnedPeriodic s ->
  meter_runs (agent s') = meter_runs (agent s) -> R_all s s'.
Proof.
  intros Hl Hw Hm. unfold R_all, warn_inv, runs_ready, not_found_warnings.
  rewrite Hl, Hw, Hm. tauto.
Qed.

Lemma R_all_ready : keeps R_all fsm_ready.
Proof.
  intros s. rewrite fsm_ready_eq. case_bool_decide; [|apply R_all_refl].
  unfold R_all, warn_inv, runs_ready, not_found_warnings. simpl.
  rewrite List.filter_app, length_app. simpl.
  repeat split; auto.
  - intros Hi. rewrite Hi. lia.
  - intros Hi. apply Forall_app. split; [exact Hi | repeat constructor].
Qed.

Lemma R_all_warn_once : keeps R_all warn_once.
Proof.
  intros s. rewrite warn_once_eq.
  destruct (warnedPeriodic s) eqn:Hw; [apply R_all_refl|].
  unfold R_all, warn_inv, runs_ready, not_found_warnings. simpl.
  rewrite Hw, List.filter_app, length_app. simpl.
  repeat split; auto. intros Hi. rewrite Hi. reflexivity.
Qed.

Lemma R_all_call w t : keeps R_all (call w t).
Proof.
  apply keeps_call;
    first [ exact R_all_refl | exact R_all_trans | exact R_all_log
          | exact R_all_ready | exact R_all_warn_once
          | intros; apply R_all_same_log; reflexivity ].
Qed.

Lemma R_all_fsm_lookup w : keeps R_all (fsm_lookup w).
Proof. apply (R_all_call w fsm_lookup_target). Qed.

(** [R_fwd] *)

Lemma R_fwd_refl s : R_fwd s s.
Proof. unfold R_fwd. repeat split; auto. Qed.

Lemma R_fwd_trans a b c : R_fwd a b -> R_fwd b c -> R_fwd a c.
Proof.
  unfold R_fwd. intros (H1 & H2 & H3 & H4) (K1 & K2 & K3 & K4).
  repeat split; auto. lia.
Qed.

Lemma R_fwd_same s s' :
  current s' = current s -> meter_runs (agent s') = meter_runs (agent s) ->
  changes s' = changes s -> started s' = started s -> R_fwd s s'.
Proof.
  intros Hc Hm Hch Hs. unfold_obs. rewrite Hc, Hm, Hch, Hs. repeat split; auto.
Qed.

Lemma R_fwd_retry fn nm s :
  fn <> fsm_lookup_target -> R_fwd s (timer_start (retry fn nm) s).
Proof.
  intros Hfn. unfold_obs. simpl. repeat split; auto.
  intros Hs. apply Forall_app. split; [exact Hs|]. apply Forall_singleton. exact Hfn.
Qed.

Lemma R_fwd_ready : keeps R_fwd fsm_ready.
Proof.
  intros s. rewrite fsm_ready_eq. case_bool_decide as Hc; [|apply R_fwd_refl].
  unfold_obs. simpl. rewrite Hc. simpl. repeat split; auto.
  - intros Hi. rewrite length_app, Hi. reflexivity.
  - intros Hi. apply Forall_app. split; [exact Hi|].
    apply Forall_singleton. unfold forward. simpl. lia.
Qed.

Lemma R_fwd_warn_once : keeps R_fwd warn_once.
Proof.
  intros s. rewrite warn_once_eq.
  destruct (warnedPeriodic s); [apply R_fwd_refl | now apply R_fwd_same].
Qed.

Lemma R_fwd_announced s :
  current s = found ->
  R_fwd s (add_change (mkEvent "announce" found announced) (set_current announced s)).
Proof.
  intros Hc. unfold_obs. simpl. rewrite Hc. simpl. repeat split; auto.
  intros Hi. apply Forall_app. split; [exact Hi|].
  apply Forall_singleton. unfold forward. simpl. lia.
Qed.

Lemma R_fwd_announce_sensor w e : keeps R_fwd (announce_sensor w e).
Proof.
  apply keeps_announce_sensor;
    first [ exact R_fwd_refl | exact R_fwd_trans | exact R_fwd_retry
          | exact R_fwd_ready | intros; now apply R_fwd_same ].
Qed.

Lemma R_fwd_lookup_agent_host w e : keeps R_fwd (lookup_agent_host w e).
Proof.
  apply keeps_lookup_agent_host;
    first [ exact R_fwd_refl | exact R_fwd_trans | exact R_fwd_retry
          | exact R_fwd_ready | exact R_fwd_warn_once | exact R_fwd_announced
          | intros; now apply R_fwd_same ].
Qed.

(** ** Executions *)

Lemma execute_snoc tr wa s : execute (tr ++ [wa]) s = step (execute tr s) wa.
Proof. unfold execute. now rewrite fold_left_app. Qed.

Lemma no_reset_snoc tr wa :
  no_reset (tr ++ [wa]) = (no_reset tr && negb (is_reset (snd wa)))%bool.
Proof. unfold no_reset. rewrite forallb_app. simpl. now rewrite andb_true_r. Qed.

Lemma step_R_all s wa : R_all s (step s wa).
Proof.
  destruct wa as [w [i|]]; simpl.
  - destruct (started s !! i) as [t|]; [|apply R_all_refl].
    eapply R_all_trans; [|apply R_all_call].
    now apply R_all_same_log.
  - apply R_all_fsm_lookup.
Qed.

Lemma execute_R_all tr : forall s, R_all s (execute tr s).
Proof.
  induction tr as [|wa tr IH]; intros s; [apply R_all_refl|].
  simpl. eapply R_all_trans; [apply step_R_all | apply IH].
Qed.

(** A timer fires in a state where no [reset] has interfered. *)
Lemma fire_forward s w i :
  startup_inv s ->
  R_fwd s (step s (w, Fire i)) /\ startup_inv (step s (w, Fire i)).
Proof.
  intros [[Hc Hs]|[Hc Hs]]; simpl.
  - rewrite Hs. destruct i as [|i]; simpl.
    2:{ split; [apply R_fwd_refl | left; auto]. }
    unfold fsm_lookup. rewrite fysom_event_eq, fysom_dst_lookup. simpl.
    rewrite Hc. simpl.
    match goal with |- context [bind _ _ ?s1] => set (s1' := s1) end.
    assert (H0 : R_fwd s s1').
    { unfold R_fwd, runs_once, forward_changes, only_retries.
      subst s1'. simpl. rewrite Hc, Hs. simpl. repeat split; auto.
      intros Hi. apply Forall_app. split; [exact Hi|].
      apply Forall_singleton. unfold forward. simpl. lia. }
    pose proof (keeps_drop R_fwd R_fwd_refl R_fwd_trans _
                  (R_fwd_lookup_agent_host w (mkEvent "lookup" none found)) s1') as H1.
    split; [eapply R_fwd_trans; eauto|].
    right. destruct H1 as (Hr & _ & _ & Hon). split.
    + subst s1'. simpl in Hr. intros Hn. rewrite Hn in Hr. simpl in Hr. lia.
    + apply Hon. subst s1'. unfold only_retries. simpl. constructor.
  - destruct (started s !! i) as [t|] eqn:Ht; [|split; [apply R_fwd_refl | right; auto]].
    set (s0 := set_started (delete i (started s)) s).
    assert (H0 : R_fwd s s0).
    { unfold R_fwd, runs_once, forward_changes, only_retries.
      subst s0. simpl. repeat split; auto.
      intros Hi. now apply Forall_delete. }
    assert (Hret : is_retry t).
    { unfold only_retries in Hs. rewrite Forall_lookup in Hs. eapply Hs; eauto. }
    assert (H1 : R_fwd s0 (fst (call w (target t) s0))).
    { unfold is_retry in Hret. destruct (target t) as [|e|e]; [congruence| |]; simpl.
      - apply (keeps_drop R_fwd R_fwd_refl R_fwd_trans _
                 (R_fwd_lookup_agent_host w e)).
      - apply (keeps_drop R_fwd R_fwd_refl R_fwd_trans _
                 (R_fwd_announce_sensor w e)). }
    pose proof (R_fwd_trans _ _ _ H0 H1) as H2.
    split; [exact H2|]. right. destruct H2 as (Hr & _ & _ & Hon). split; [|auto].
    intros Hn. rewrite Hn in Hr.
    assert (rank (current s) <> 0)%nat by (destruct (current s); simpl; congruence).
    simpl in Hr. lia.
Qed.

Lemma init_startup_inv ag : startup_inv (__init__ ag).
Proof. left. split; reflexivity. Qed.

Lemma execute_forward ag tr :
  no_reset tr = true ->
  R_fwd (__init__ ag) (execute tr (__init__ ag)) /\
  startup_inv (execute tr (__init__ ag)).
Proof.
  induction tr as [|wa tr IH] using rev_ind; intros Hnr.
  - split; [apply R_fwd_refl | apply init_startup_inv].
  - rewrite no_reset_snoc in Hnr. apply andb_true_iff in Hnr as [Hnr Hwa].
    destruct (IH Hnr) as [Hf Hi]. rewrite execute_snoc.
    destruct wa as [w [i|]]; [|discriminate].
    destruct (fire_forward _ w i Hi) as [Hf' Hi'].
    split; [eapply R_fwd_trans; eauto | exact Hi'].
Qed.

(** ** The steps, case by case *)

Lemma fst_drop {A} (m : M A) s : fst ((run! m; ret tt) s) = fst (m s).
Proof. unfold bind, ret. destruct (m s) as [s' [a|e]]; reflexivity. Qed.

Lemma not_found_eq fn nm s :
  (run! warn_once; run! schedule_retry fn nm; ret false) s =
  (timer_start (retry fn nm)
     (add_log DEBUG ("Scheduling: " ++ nm) (fst (warn_once s))), Ok false).
Proof. unfold bind. rewrite warn_once_eq. destruct (warnedPeriodic s); reflexivity. Qed.

Lemma warn_once_latch s : warnedPeriodic (fst (warn_once s)) = true.
Proof. rewrite warn_once_eq. destruct (warnedPeriodic s) eqn:H; simpl; auto. Qed.

Lemma warn_once_frame s :
  current (fst (warn_once s)) = current s /\
  started (fst (warn_once s)) = started s.
Proof. rewrite warn_once_eq. destruct (warnedPeriodic s); simpl; auto. Qed.

Lemma found_agent_fst w h p s :
  fst ((run! modify (set_agent_host_port h p); run! fsm_announce w; ret true) s) =
  fst (fsm_announce w (set_agent_host_port h p s)).
Proof.
  unfold bind, modify, ret.
  destruct (fsm_announce w (set_agent_host_port h p s)) as [s' [a|e]]; reflexivity.
Qed.

Lemma found_agent_not_false w h p s :
  snd ((run! modify (set_agent_host_port h p); run! fsm_announce w; ret true) s)
  <> Ok false.
Proof.
  unfold bind, modify, ret.
  destruct (fsm_announce w (set_agent_host_port h p s)) as [s' [a|e]]; simpl; congruence.
Qed.

(** A lookup whose first probe fails on a host without /proc. *)
Lemma lookup_agent_host_no_proc w e s h p :
  __get_agent_host_port w = Ok (h, p) ->
  request_header w h <> Some AGENT_HEADER ->
  proc_exists w = false ->
  lookup_agent_host w e s =
  (timer_start (retry (lookup_agent_host_target e) "agent_lookup")
     (add_log DEBUG "Scheduling: agent_lookup"
        (fst (warn_once (add_log DEBUG "checking host" s)))), Ok false).
Proof.
  intros Hres Hh Hproc. unfold lookup_agent_host.
  unfold bind at 1, lift. rewrite Hres. simpl.
  unfold bind at 1, check_host. simpl. unfold bind at 1. simpl.
  rewrite bool_decide_eq_false_2 by exact Hh. rewrite Hproc.
  apply not_found_eq.
Qed.

(** A lookup whose first probe finds the agent. *)
Lemma lookup_agent_host_found w e s h p :
  __get_agent_host_port w = Ok (h, p) ->
  request_header w h = Some AGENT_HEADER ->
  fst (lookup_agent_host w e s) =
  fst (fsm_announce w (set_agent_host_port h p (add_log DEBUG "checking host" s))).
Proof.
  intros Hres Hh. unfold lookup_agent_host.
  unfold bind at 1, lift. rewrite Hres. simpl.
  unfold bind at 1, check_host. simpl. unfold bind at 1. simpl.
  rewrite bool_decide_eq_true_2 by exact Hh.
  apply found_agent_fst.
Qed.

Lemma fsm_announce_from_found w s :
  current s = found ->
  fst (fsm_announce w s) =
  fst (announce_sensor w (mkEvent "announce" found announced)
         (add_log DEBUG "FSM event"
            (add_change (mkEvent "announce" found announced)
               (set_current announced s)))).
Proof.
  intros Hc. unfold fsm_announce. rewrite fysom_event_eq, fysom_dst_announce, Hc.
  simpl. apply fst_drop.
Qed.

Lemma fsm_announce_elsewhere w s :
  current s <> found -> fsm_announce w s = (s, Raise (FysomError "announce")).
Proof.
  intros Hc. unfold fsm_announce. rewrite fysom_event_eq, fysom_dst_announce.
  now rewrite bool_decide_eq_false_2.
Qed.

Lemma fsm_lookup_fst w s :
  fst (fsm_lookup w s) =
  fst (lookup_agent_host w (mkEvent "lookup" (current s) found)
         (if bool_decide (current s = found) then s
          else add_log DEBUG "FSM event"
                 (add_change (mkEvent "lookup" (current s) found)
                    (set_current found s)))).
Proof.
  unfold fsm_lookup. rewrite fysom_event_eq, fysom_dst_lookup. simpl.
  case_bool_decide; apply fst_drop.
Qed.

(** The discovery object does not depend on the state of the machine, and
    building it touches nothing but the log. *)
Lemma discovery_log_only w : keeps R_log_only (discovery w).
Proof.
  apply keeps_discovery;
    first [ exact R_log_only_refl | exact R_log_only_trans
          | exact R_log_only_log ].
Qed.

Lemma get_real_pid_result w s : snd (__get_real_pid w s) = Ok (resolveKernelPid w).
Proof.
  unfold __get_real_pid, resolveKernelPid, bind, logger, modify, ret.
  destruct (proc_exists w); [|reflexivity].
  destruct (sched_line w) as [[line|]|]; try reflexivity.
  destruct (re_search_pid _); reflexivity.
Qed.

Lemma read_cmdline_result w s : snd (read_cmdline w s) = Ok (resolveCommandLine w).
Proof.
  unfold read_cmdline, resolveCommandLine, bind, logger, modify, ret.
  destruct (proc_self_cmdline w) as [[c|]|]; try reflexivity.
  destruct (ps_output w) as [out|]; try reflexivity.
  destruct (py_split _ out !! 1%nat); reflexivity.
Qed.

Lemma bind_snd {A B} (m : M A) (f : A -> M B) s a :
  snd (m s) = Ok a -> bind m f s = f a (fst (m s)).
Proof. unfold bind. destruct (m s) as [s' r]. simpl. now intros ->. Qed.

Lemma get_default_gateway_result w s :
  snd (get_default_gateway w s) = Ok (ip_route w).
Proof.
  unfold get_default_gateway, bind, logger, modify, ret. simpl.
  destruct (ip_route w); reflexivity.
Qed.

Lemma bind_ret {A B} (a : A) (f : A -> M B) s : bind (ret a) f s = f a s.
Proof. reflexivity. Qed.

Lemma discovery_cases w s d :
  snd (discovery w s) = Ok d ->
  exists nm args,
    resolveCommandLine w = nm :: args /\
    let d0 := Discovery_init (<["pid" := PyInt (resolveKernelPid w)]>
                             (<["name" := PyStr nm]>
                             (<["args" := PyList args]> ∅))) in
    if proc_exists w
    then exists fd link,
           socket_connect w = Some (fd, Some link) /\
           d = setattr (setattr d0 "fd" (PyInt fd)) "inode" (PyStr link)
    else d = d0.
Proof.
  unfold discovery.
  rewrite (bind_snd _ _ _ tt) by reflexivity.
  rewrite (bind_snd _ _ _ _ (read_cmdline_result w _)).
  rewrite (bind_snd _ _ _ _ (get_real_pid_result w _)).
  destruct (resolveCommandLine w) as [|nm args]; [discriminate|].
  rewrite bind_ret.
  intros H. exists nm, args. split; [reflexivity|]. simpl.
  destruct (proc_exists w); simpl in H.
  - destruct (socket_connect w) as [[fd [link|]]|]; try discriminate.
    exists fd, link. split; [reflexivity|]. simpl in H. congruence.
  - congruence.
Qed.

Lemma discovery_indep w s s' : snd (discovery w s) = snd (discovery w s').
Proof.
  unfold discovery.
  rewrite !(bind_snd _ _ _ tt) by reflexivity.
  rewrite !(bind_snd _ _ _ _ (read_cmdline_result w _)).
  rewrite !(bind_snd _ _ _ _ (get_real_pid_result w _)).
  destruct (resolveCommandLine w) as [|nm args]; [reflexivity|].
  rewrite !bind_ret.
  destruct (proc_exists w); [|reflexivity].
  destruct (socket_connect w) as [[fd [link|]]|]; reflexivity.
Qed.


(** Every attempt that gets as far as the agent hands it one object. *)
Lemma announce_sensor_sent w e s d :
  snd (discovery w s) = Ok d ->
  sent (fst (announce_sensor w e s)) = (sent s ++ [d])%list.
Proof.
  intros Hd. unfold announce_sensor.
  rewrite (bind_snd _ _ _ _ Hd).
  rewrite (bind_snd _ _ _ tt) by reflexivity.
  destruct (discovery_log_only w s) as (_ & _ & _ & _ & _ & _ & Hs).
  destruct (truthy _).
  - rewrite (bind_snd _ _ _ tt) by reflexivity.
    unfold bind at 1. rewrite fsm_ready_eq.
    case_bool_decide; simpl; now rewrite Hs.
  - simpl. now rewrite Hs.
Qed.

(** ** The announce step *)


(** ** The lookup step *)

(** C2, as the code has it: a lookup attempt whose probe does not return
    the agent's header, on a host without /proc, returns [False], starts
    exactly one retry timer, named "agent_lookup", sets the warning latch
    and leaves the state of the machine as it was. When the attempt is
    started by the lookup event (the startup timer or [reset]) that state
    is [found], whatever it was before: the event moves the machine there
    before it runs the step. *)
Theorem lookup_failure_schedules_retry w e s h p :
  __get_agent_host_port w = Ok (h, p) ->
  request_header w h <> Some AGENT_HEADER ->
  proc_exists w = false ->
  let s' := fst (lookup_agent_host w e s) in
  snd (lookup_agent_host w e s) = Ok false /\
  started s' = (started s ++ [retry (lookup_agent_host_target e) "agent_lookup"])%list /\
  current s' = current s /\
  warnedPeriodic s' = true /\
  (current s <> found ->
   let s'' := fst (fsm_lookup w s) in
   current s'' = found /\
   started s'' =
     (started s ++
      [retry (lookup_agent_host_target (mkEvent "lookup" (current s) found))
             "agent_lookup"])%list).
Proof.
  intros Hres Hh Hproc. cbv zeta.
  rewrite !(lookup_agent_host_no_proc w _ _ h p Hres Hh Hproc). simpl.
  rewrite warn_once_latch.
  destruct (warn_once_frame (add_log DEBUG "checking host" s)) as [Hc Hs].
  rewrite Hc, Hs. simpl. do 4 (split; [reflexivity|]).
  intros Hne. rewrite fsm_lookup_fst, bool_decide_eq_false_2 by exact Hne.
  rewrite (lookup_agent_host_no_proc w _ _ h p Hres Hh Hproc). simpl.
  match goal with |- context [warn_once ?s0] =>
    destruct (warn_once_frame s0) as [Hc' Hs']; rewrite Hc', Hs' end.
  split; reflexivity.
Qed.

(** C7, as the code has it: a lookup attempt whose probe of the resolved
    host returns the agent's header records that host and that port on
    the agent object and fires the announce event. The machine is in
    [found] already when the step runs, so a successful lookup leaves it
    in [announced], or in [good2go] when the announce step succeeds in the
    same run; it never ends in [found]. *)
Theorem lookup_success_records_endpoint w e s h p :
  __get_agent_host_port w = Ok (h, p) ->
  request_header w h = Some AGENT_HEADER ->
  let s' := fst (lookup_agent_host w e s) in
  host (agent s') = Some h /\ port (agent s') = Some p /\
  (current s = found -> current s' = announced \/ current s' = good2go) /\
  (current s <> found ->
   let s'' := fst (fsm_lookup w s) in
   host (agent s'') = Some h /\ port (agent s'') = Some p /\
   (current s'' = announced \/ current s'' = good2go)).
Proof.
  intros Hres Hh.
  assert (Hstep : forall e0 s0,
    let s1 := fst (lookup_agent_host w e0 s0) in
    host (agent s1) = Some h /\ port (agent s1) = Some p /\
    (current s0 = found -> current s1 = announced \/ current s1 = good2go)).
  { intros e0 s0. cbv zeta.
    rewrite (lookup_agent_host_found w e0 s0 h p Hres Hh).
    set (s2 := set_agent_host_port h p (add_log DEBUG "checking host" s0)).
    destruct (decide (current s0 = found)) as [Hc|Hc].
    - rewrite (fsm_announce_from_found w s2 Hc).
      match goal with |- context [announce_sensor w ?e1 ?s3] =>
        destruct (R_endpoint_announce_sensor w e1 s3) as [Hh' Hp'];
        destruct (R_fwd_announce_sensor w e1 s3) as (Hr & _);
        set (s4 := fst (announce_sensor w e1 s3)) in *
      end.
      simpl in Hh', Hp', Hr. repeat split; [congruence | congruence |].
      intros _. destruct (current s4); simpl in Hr; auto; lia.
    - rewrite (fsm_announce_elsewhere w s2) by exact Hc. simpl.
      repeat split; auto. intros. contradiction. }
  cbv zeta. split; [apply Hstep|]. split; [apply Hstep|]. split; [apply Hstep|].
  intros Hne. rewrite fsm_lookup_fst, bool_decide_eq_false_2 by exact Hne.
  match goal with |- context [lookup_agent_host w ?e0 ?s0] =>
    destruct (Hstep e0 s0) as (H1 & H2 & H3) end.
  split; [exact H1|]. split; [exact H2|]. apply H3. reflexivity.
Qed.

(** ** Host and port resolution *)

Lemma get_agent_host_port_refines w : __get_agent_host_port w = resolveEndpoint w.
Proof.
  unfold __get_agent_host_port, resolveEndpoint, precedence. simpl.
  destruct (os_environ w !! "INSTANA_AGENT_HOST") as [h|]; simpl.
  { destruct (os_environ w !! "INSTANA_AGENT_PORT") as [pt|]; [|reflexivity].
    destruct (py_int pt); reflexivity. }
  destruct (os_environ w !! "INSTANA_AGENT_IP") as [h|]; simpl.
  { destruct (os_environ w !! "INSTANA_AGENT_PORT") as [pt|]; [|reflexivity].
    destruct (py_int pt); reflexivity. }
  case_bool_decide; simpl; [reflexivity|].
  case_bool_decide; reflexivity.
Qed.

Lemma first_match_same src h w w' :
  first_match w precedence = Some (src, h) ->
  same_up_to src w w' ->
  first_match w' precedence = Some (src, h).
Proof.
  unfold precedence, same_up_to. intros Hm [_ Hs]. simpl in *.
  destruct (os_environ w !! "INSTANA_AGENT_HOST") as [h1|].
  { inversion Hm; subst. simpl in Hs. now rewrite Hs. }
  destruct (os_environ w !! "INSTANA_AGENT_IP") as [h2|].
  { inversion Hm; subst. simpl in Hs. destruct Hs as [H1 H2]. now rewrite H1, H2. }
  destruct (bool_decide (agent_host (options w) = "")).
  - inversion Hm; subst. simpl in Hs. destruct Hs as (H1 & H2 & H3).
    now rewrite H1, H2, H3.
  - inversion Hm; subst. simpl in Hs. destruct Hs as (H1 & H2 & H3).
    now rewrite H1, H2, H3.
Qed.

(** C6: the host and port are resolved by the four sources in order, the
    first one that supplies a host wins and brings its port with it
    (the port variable for the two environment hosts, the configured port
    for the configured host, the built-in port otherwise), and a world
    that differs only in the sources after the winning one resolves to
    the same result. *)
Theorem get_agent_host_port_precedence w :
  __get_agent_host_port w = resolveEndpoint w /\
  forall src h w',
    first_match w precedence = Some (src, h) ->
    same_up_to src w w' ->
    __get_agent_host_port w' = __get_agent_host_port w.
Proof.
  split; [apply get_agent_host_port_refines|].
  intros src h w' Hm Hs.
  rewrite !get_agent_host_port_refines. unfold resolveEndpoint.
  rewrite (first_match_same src h w w' Hm Hs), Hm.
  destruct Hs as [-> _]. reflexivity.
Qed.

(** C3, as the code has it: the resolution returns a host and a port
    whenever the port variable is unset or holds a string [int] accepts,
    and the built-in defaults when nothing overrides them. The one way it
    fails is a [ValueError] from [int], on a port variable [int] rejects
    that goes with a host taken from the environment. *)
Theorem get_agent_host_port_total_on_valid_port w :
  (forall pt, os_environ w !! "INSTANA_AGENT_PORT" = Some pt -> is_Some (py_int pt)) ->
  (exists h p, __get_agent_host_port w = Ok (h, p)) /\
  (os_environ w !! "INSTANA_AGENT_HOST" = None ->
   os_environ w !! "INSTANA_AGENT_IP" = None ->
   agent_host (options w) = "" ->
   __get_agent_host_port w = Ok (AGENT_DEFAULT_HOST, AGENT_DEFAULT_PORT)) /\
  (forall e, __get_agent_host_port w = Raise e -> False).
Proof.
  intros Hport. unfold __get_agent_host_port.
  destruct (os_environ w !! "INSTANA_AGENT_PORT") as [pt|] eqn:Ept.
  - destruct (Hport pt eq_refl) as [n Hn]. rewrite Hn.
    destruct (os_environ w !! "INSTANA_AGENT_HOST") as [h|];
      [|destruct (os_environ w !! "INSTANA_AGENT_IP") as [h|]].
    + repeat split; eauto; discriminate.
    + repeat split; eauto; discriminate.
    + split; [|split].
      * repeat case_bool_decide; simpl; eauto.
      * intros _ _ ->. reflexivity.
      * intros e. repeat case_bool_decide; simpl; discriminate.
  - destruct (os_environ w !! "INSTANA_AGENT_HOST") as [h|];
      [|destruct (os_environ w !! "INSTANA_AGENT_IP") as [h|]].
    + repeat split; eauto; discriminate.
    + repeat split; eauto; discriminate.
    + split; [|split].
      * repeat case_bool_decide; simpl; eauto.
      * intros _ _ ->. reflexivity.
      * intros e. repeat case_bool_decide; simpl; discriminate.
Qed.

(** The failure of the resolution, exactly. *)
Lemma get_agent_host_port_raises w e :
  __get_agent_host_port w = Raise e <->
  e = ValueError /\
  (is_Some (os_environ w !! "INSTANA_AGENT_HOST") \/
   is_Some (os_environ w !! "INSTANA_AGENT_IP")) /\
  exists pt, os_environ w !! "INSTANA_AGENT_PORT" = Some pt /\ py_int pt = None.
Proof.
  unfold __get_agent_host_port.
  destruct (os_environ w !! "INSTANA_AGENT_HOST") as [h|] eqn:Eh;
    [|destruct (os_environ w !! "INSTANA_AGENT_IP") as [h|] eqn:Ei].
  1,2: destruct (os_environ w !! "INSTANA_AGENT_PORT") as [pt|] eqn:Ept;
    [destruct (py_int pt) eqn:En|];
    (split;
     [ intros H; inversion H; subst;
       (split; [reflexivity|]); (split; [|eauto]);
       first [left; eexists; reflexivity | right; eexists; reflexivity]
     | intros (-> & _ & pt' & Hpt & Hn); inversion Hpt; subst; congruence ]).
  split.
  - repeat case_bool_decide; simpl; discriminate.
  - intros (_ & [[? ?]|[? ?]] & _); discriminate.
Qed.

(** ** The discovery record *)

Lemma to_dict_lookup d :
  to_dict d !! "pid" = Some (getattr d "pid") /\
  to_dict d !! "name" = Some (getattr d "name") /\
  to_dict d !! "args" = Some (getattr d "args") /\
  to_dict d !! "fd" = Some (getattr d "fd") /\
  to_dict d !! "inode" = Some (getattr d "inode").
Proof. unfold to_dict. repeat split; now simplify_map_eq. Qed.

Lemma dom_to_dict d : dom (to_dict d) = Discovery_keys.
Proof.
  unfold to_dict, Discovery_keys. rewrite !dom_insert_L, dom_empty_L. set_solver.
Qed.

Lemma Discovery_init_eq (kwds : gmap string PyVal) : Discovery_init kwds = kwds.
Proof. unfold Discovery_init. apply (right_id_L ∅ (∪)). Qed.

(** The attributes the steps set on a discovery object. *)
Lemma discovery_object_dom w s d :
  snd (discovery w s) = Ok d -> dom d ⊆ Discovery_keys.
Proof.
  intros Hd. destruct (discovery_cases w s d Hd) as (nm & args & _ & Hcase).
  cbv zeta in Hcase. rewrite Discovery_init_eq in Hcase.
  unfold Discovery_keys.
  destruct (proc_exists w).
  - destruct Hcase as (fd & link & _ & ->). unfold setattr.
    rewrite !dom_insert_L, dom_empty_L. set_solver.
  - rewrite Hcase, !dom_insert_L, dom_empty_L. intros k. set_unfold. tauto.
Qed.

(** C5, as the code has it: the discovery object an announce attempt hands
    to the agent carries, as its pid attribute, the process id as the
    kernel sees it, which is the self-observed id only when
    /proc/<pid>/sched cannot be read or parsed; its name and args are the
    head and the tail of the command line. Besides these three it carries
    at most the socket attributes fd and inode: the self-observed id has
    no attribute of its own. *)
Theorem discovery_object_fields w e s d :
  snd (discovery w s) = Ok d ->
  sent (fst (announce_sensor w e s)) = (sent s ++ [d])%list /\
  d !! "pid" = Some (PyInt (resolveKernelPid w)) /\
  (exists nm args,
     resolveCommandLine w = nm :: args /\
     d !! "name" = Some (PyStr nm) /\
     d !! "args" = Some (PyList args)) /\
  dom d ⊆ Discovery_keys.
Proof.
  intros Hd. split; [now apply announce_sensor_sent|].
  assert (Hdom := discovery_object_dom w s d Hd).
  destruct (discovery_cases w s d Hd) as (nm & args & Hcl & Hcase).
  cbv zeta in Hcase. rewrite Discovery_init_eq in Hcase.
  assert (Hattrs : d !! "pid" = Some (PyInt (resolveKernelPid w)) /\
                   d !! "name" = Some (PyStr nm) /\
                   d !! "args" = Some (PyList args)).
  { destruct (proc_exists w).
    - destruct Hcase as (fd & link & _ & ->).
      unfold setattr. repeat split; now simplify_map_eq.
    - subst d. repeat split; now simplify_map_eq. }
  destruct Hattrs as (Hp & Hn & Ha).
  split; [exact Hp|]. split; [|exact Hdom]. exists nm, args. auto.
Qed.

(** ** Whole executions *)

(** C8: in an execution without a call of [reset] no step takes the
    machine to an earlier state of none, found, announced, good2go, and
    every change of state that was reported leads to a later one. *)
Theorem state_moves_forward_without_reset ag tr wa :
  no_reset (tr ++ [wa]) = true ->
  let s := execute tr (__init__ ag) in
  (rank (current s) <= rank (current (step s wa)))%nat /\
  forward_changes (step s wa).
Proof.
  intros Hnr. cbv zeta.
  destruct (execute_forward ag (tr ++ [wa]) Hnr) as [(_ & _ & Hch & _) _].
  rewrite execute_snoc in Hch.
  split; [|apply Hch; constructor].
  rewrite no_reset_snoc in Hnr. apply andb_true_iff in Hnr as [Hnr Hwa].
  destruct (execute_forward ag tr Hnr) as [_ Hinv].
  destruct wa as [w [i|]]; [|discriminate].
  destruct (fire_forward _ w i Hinv) as [(Hr & _) _]. exact Hr.
Qed.

(** C4, as the code has it: every call of the telemetry start is made in
    the terminal state, in any execution; and in an execution without a
    call of [reset] it is called once if the machine has reached the
    terminal state and not at all before. *)
Theorem metric_reporting_once_without_reset ag tr :
  meter_runs ag = [] ->
  let s := execute tr (__init__ ag) in
  Forall (fun st => st = good2go) (meter_runs (agent s)) /\
  (no_reset tr = true ->
   length (meter_runs (agent s)) =
   if bool_decide (current s = good2go) then 1%nat else 0%nat).
Proof.
  intros Hag. cbv zeta. split.
  - destruct (execute_R_all tr (__init__ ag)) as (_ & Hr & _).
    apply Hr. unfold runs_ready. simpl. rewrite Hag. constructor.
  - intros Hnr. destruct (execute_forward ag tr Hnr) as [(_ & Ho & _) _].
    apply Ho. unfold runs_once. simpl. now rewrite Hag.
Qed.


(** ** Every path through the steps *)

Lemma discovery_frame w s :
  agent (fst (discovery w s)) = agent s /\
  current (fst (discovery w s)) = current s /\
  timer (fst (discovery w s)) = timer s /\
  warnedPeriodic (fst (discovery w s)) = warnedPeriodic s /\
  started (fst (discovery w s)) = started s /\
  changes (fst (discovery w s)) = changes s /\
  sent (fst (discovery w s)) = sent s.
Proof. exact (discovery_log_only w s). Qed.

(** The announce step, path by path. *)
Lemma announce_sensor_cases w e s :
  match snd (discovery w s) with
  | Raise ex => announce_sensor w e s = (fst (discovery w s), Raise ex)
  | Ok d =>
      let s1 := add_sent d (fst (discovery w s)) in
      if truthy (request_response w d) then
        let s2 := set_from (default "" (request_response w d)) s1 in
        if bool_decide (current s = announced) then
          announce_sensor w e s =
          (add_log INFO "Host agent available. We're in business."
             (meter_run (add_log DEBUG "FSM event"
                (add_change e_ready (set_current good2go s2)))), Ok true)
        else announce_sensor w e s = (s2, Raise (FysomError "ready"))
      else
        announce_sensor w e s =
        (timer_start (retry (announce_sensor_target e) "announce")
           (add_log DEBUG "Scheduling: announce"
              (add_log DEBUG "Cannot announce sensor. Scheduling retry." s1)),
         Ok false)
  end.
Proof.
  destruct (discovery_frame w s) as (_ & Hc & _).
  unfold announce_sensor.
  destruct (discovery w s) as [s0 [d|ex]] eqn:Hd; simpl in *.
  - rewrite (bind_snd (discovery w) _ s d) by (now rewrite Hd).
    rewrite Hd. simpl fst.
    rewrite (bind_snd _ _ _ tt) by reflexivity. simpl fst.
    destruct (truthy (request_response w d)); [|reflexivity].
    rewrite (bind_snd _ _ _ tt) by reflexivity. simpl fst.
    unfold bind. rewrite fsm_ready_eq. simpl. rewrite Hc.
    case_bool_decide; reflexivity.
  - unfold bind. now rewrite Hd.
Qed.

Lemma get_default_gateway_fst w s :
  fst (get_default_gateway w s) = gateway_logged w s.
Proof.
  unfold get_default_gateway, gateway_logged, bind, logger, modify, ret. simpl.
  destruct (ip_route w); reflexivity.
Qed.

(** The lookup step, path by path. *)
Lemma lookup_agent_host_cases w e s :
  match __get_agent_host_port w with
  | Raise ex => lookup_agent_host w e s = (s, Raise ex)
  | Ok (h, p) =>
      let s1 := add_log DEBUG "checking host" s in
      if bool_decide (request_header w h = Some AGENT_HEADER) then
        lookup_agent_host w e s = found_path w h p s1
      else if proc_exists w then
        let s2 := gateway_logged w s1 in
        match ip_route w with
        | Some gw =>
            if negb (bool_decide (gw = "")) then
              let s3 := add_log DEBUG "checking host" s2 in
              if bool_decide (request_header w gw = Some AGENT_HEADER) then
                lookup_agent_host w e s = found_path w gw p s3
              else lookup_agent_host w e s = not_found_path e s3
            else lookup_agent_host w e s = not_found_path e s2
        | None => lookup_agent_host w e s = not_found_path e s2
        end
      else lookup_agent_host w e s = not_found_path e s1
  end.
Proof.
  unfold lookup_agent_host, found_path, not_found_path.
  destruct (__get_agent_host_port w) as [[h p]|ex]; [|reflexivity].
  rewrite (bind_snd _ _ _ (h, p)) by reflexivity.
  rewrite (bind_snd _ _ _ (request_header w h)) by reflexivity. simpl fst.
  destruct (bool_decide (request_header w h = Some AGENT_HEADER)); [reflexivity|].
  destruct (proc_exists w); [|reflexivity].
  rewrite (bind_snd _ _ _ _ (get_default_gateway_result w _)).
  rewrite get_default_gateway_fst.
  destruct (ip_route w) as [gw|] eqn:Hgw; [|reflexivity].
  destruct (negb _); [|reflexivity].
  rewrite (bind_snd _ _ _ (request_header w gw)) by reflexivity. simpl fst.
  destruct (bool_decide (request_header w gw = Some AGENT_HEADER)); reflexivity.
Qed.

(** The announce event, path by path. *)
Lemma fsm_announce_cases w s :
  if bool_decide (current s = found) then
    fst (fsm_announce w s) =
    fst (announce_sensor w e_announce
           (add_log DEBUG "FSM event" (add_change e_announce (set_current announced s))))
  else fsm_announce w s = (s, Raise (FysomError "announce")).
Proof.
  case_bool_decide as Hc.
  - now apply fsm_announce_from_found.
  - now apply fsm_announce_elsewhere.
Qed.

Lemma found_path_fst w h p s :
  fst (found_path w h p s) = fst (fsm_announce w (set_agent_host_port h p s)).
Proof. apply found_agent_fst. Qed.

Lemma not_found_path_eq e s :
  not_found_path e s =
  (timer_start (retry (lookup_agent_host_target e) "agent_lookup")
     (add_log DEBUG "Scheduling: agent_lookup" (fst (warn_once s))), Ok false).
Proof. apply not_found_eq. Qed.

Ltac lookup_paths w e s :=
  let Hcases := fresh "Hcases" in
  pose proof (lookup_agent_host_cases w e s) as Hcases; cbv zeta in Hcases;
  destruct (__get_agent_host_port w) as [[?h ?p]|?ex] eqn:?Hres;
  [ match type of Hcases with context [bool_decide ?P] =>
      destruct (bool_decide P) eqn:?Hh1 end;
    [ | destruct (proc_exists w) eqn:?Hproc;
        [ destruct (ip_route w) as [?gw|] eqn:?Hgw;
          [ match type of Hcases with context [negb ?b] =>
              destruct (negb b) eqn:?Hne end;
            [ match type of Hcases with context [bool_decide ?P] =>
                destruct (bool_decide P) eqn:?Hh2 end | ] | ] | ] ] | ].

Lemma gateway_logged_frame w s : R_log_only s (gateway_logged w s).
Proof. unfold gateway_logged, R_log_only. destruct (ip_route w); simpl; tauto. Qed.

Lemma warn_once_frame_all s :
  agent (fst (warn_once s)) = agent s /\
  current (fst (warn_once s)) = current s /\
  timer (fst (warn_once s)) = timer s /\
  started (fst (warn_once s)) = started s /\
  changes (fst (warn_once s)) = changes s /\
  sent (fst (warn_once s)) = sent s.
Proof. rewrite warn_once_eq. destruct (warnedPeriodic s); simpl; tauto. Qed.

(** A lookup that gives up: what it leaves behind, from a state whose log
    alone differs from [s]. *)
Lemma not_found_path_frame e s s1 :
  R_log_only s s1 ->
  snd (not_found_path e s1) = Ok false /\
  started (fst (not_found_path e s1)) =
    (started s ++ [retry (lookup_agent_host_target e) "agent_lookup"])%list /\
  timer (fst (not_found_path e s1)) =
    Some (retry (lookup_agent_host_target e) "agent_lookup") /\
  current (fst (not_found_path e s1)) = current s /\
  agent (fst (not_found_path e s1)) = agent s /\
  changes (fst (not_found_path e s1)) = changes s /\
  sent (fst (not_found_path e s1)) = sent s /\
  warnedPeriodic (fst (not_found_path e s1)) = true.
Proof.
  intros (Ha & Hc & _ & _ & Hs & Hch & Hse).
  rewrite not_found_path_eq. simpl. rewrite warn_once_latch.
  destruct (warn_once_frame_all s1) as (-> & -> & _ & -> & -> & ->).
  rewrite Ha, Hc, Hs, Hch, Hse. repeat split; reflexivity.
Qed.

Lemma found_path_not_false w h p s : snd (found_path w h p s) <> Ok false.
Proof. apply found_agent_not_false. Qed.

Lemma log_only_1 s : R_log_only s (add_log DEBUG "checking host" s).
Proof. now apply R_log_only_log. Qed.

Lemma log_only_2 w s :
  R_log_only s (gateway_logged w (add_log DEBUG "checking host" s)).
Proof. eapply R_log_only_trans; [apply log_only_1 | apply gateway_logged_frame]. Qed.

Lemma log_only_3 w s :
  R_log_only s (add_log DEBUG "checking host"
                  (gateway_logged w (add_log DEBUG "checking host" s))).
Proof. eapply R_log_only_trans; [apply log_only_2 | now apply R_log_only_log]. Qed.

(** The announce event leaves the recorded endpoint alone and, fired in
    [found], takes the machine to [announced] or beyond. *)
Lemma fsm_announce_endpoint w s :
  host (agent (fst (fsm_announce w s))) = host (agent s) /\
  port (agent (fst (fsm_announce w s))) = port (agent s) /\
  (current s = found ->
   current (fst (fsm_announce w s)) = announced \/
   current (fst (fsm_announce w s)) = good2go) /\
  (current s <> found -> fsm_announce w s = (s, Raise (FysomError "announce"))).
Proof.
  pose proof (fsm_announce_cases w s) as Hc.
  case_bool_decide as Hf.
  - rewrite Hc.
    match goal with |- context [announce_sensor w ?e1 ?s3] =>
      destruct (R_endpoint_announce_sensor w e1 s3) as [Hh' Hp'];
      destruct (R_fwd_announce_sensor w e1 s3) as (Hr & _);
      set (s4 := fst (announce_sensor w e1 s3)) in *
    end.
    simpl in Hh', Hp', Hr. repeat split; try congruence.
    intros _. destruct (current s4); simpl in Hr; auto; lia.
  - rewrite Hc. simpl. repeat split; auto. intros; contradiction.
Qed.

(** ** More on the lookup step *)

(** X1: a lookup that returns [False], on whatever path (first probe
    failed and no /proc, no gateway, an empty gateway, or a gateway that
    does not answer as the agent), has started exactly one retry timer named
    "agent_lookup" that calls [lookup_agent_host] with the same event
    object, has set the warning latch, and has changed neither the state of
    the machine nor the agent object nor what was sent. *)
Theorem lookup_false_schedules_one_retry w e s :
  snd (lookup_agent_host w e s) = Ok false ->
  let s' := fst (lookup_agent_host w e s) in
  started s' = (started s ++ [retry (lookup_agent_host_target e) "agent_lookup"])%list /\
  timer s' = Some (retry (lookup_agent_host_target e) "agent_lookup") /\
  current s' = current s /\ agent s' = agent s /\
  changes s' = changes s /\ sent s' = sent s /\
  warnedPeriodic s' = true.
Proof.
  cbv zeta. lookup_paths w e s; rewrite Hcases; intros Hf;
    try (exfalso; revert Hf; apply found_path_not_false);
    try discriminate Hf.
  - apply (not_found_path_frame e s _ (log_only_3 w s)).
  - apply (not_found_path_frame e s _ (log_only_2 w s)).
  - apply (not_found_path_frame e s _ (log_only_2 w s)).
  - apply (not_found_path_frame e s _ (log_only_1 s)).
Qed.

(** X2: when the probe of the resolved host fails on a host with /proc and
    the routing table names a gateway that answers as the agent, the lookup
    records the gateway, with the port resolved before, on the agent object
    and fires the announce event. *)
Theorem lookup_falls_back_to_gateway w e s h p gw :
  __get_agent_host_port w = Ok (h, p) ->
  request_header w h <> Some AGENT_HEADER ->
  proc_exists w = true ->
  ip_route w = Some gw ->
  gw <> "" ->
  request_header w gw = Some AGENT_HEADER ->
  let s' := fst (lookup_agent_host w e s) in
  host (agent s') = Some gw /\ port (agent s') = Some p /\
  (current s = found -> current s' = announced \/ current s' = good2go) /\
  (current s <> found ->
   snd (lookup_agent_host w e s) = Raise (FysomError "announce") /\
   current s' = current s).
Proof.
  intros Hres Hh Hproc Hgw Hne Hg. cbv zeta.
  pose proof (lookup_agent_host_cases w e s) as Hc. cbv zeta in Hc.
  rewrite Hres, Hproc, Hgw in Hc.
  rewrite (bool_decide_eq_false_2 _ Hh), (bool_decide_eq_false_2 _ Hne) in Hc.
  rewrite (bool_decide_eq_true_2 _ Hg) in Hc. simpl in Hc.
  rewrite Hc, found_path_fst.
  match goal with |- context [fsm_announce w ?s2] =>
    destruct (fsm_announce_endpoint w s2) as (H1 & H2 & H3 & H4);
    set (sa := s2) in * end.
  assert (Hcur : current sa = current s).
  { subst sa. simpl. unfold gateway_logged. rewrite Hgw. reflexivity. }
  rewrite H1, H2, Hcur in *. subst sa. simpl.
  split; [reflexivity|]. split; [reflexivity|]. split; [exact H3|].
  intros Hnf. unfold found_path. unfold bind, modify. simpl.
  rewrite (H4 Hnf). simpl. split; [reflexivity | exact Hcur].
Qed.

(** X3: when the resolution of the host and port raises, the lookup raises
    the same exception and changes nothing: no warning, no retry. The
    startup run then leaves the machine in [found] with no timer pending,
    and no later firing of timers changes it again. *)
Theorem lookup_stalls_when_resolution_raises w ag ex :
  __get_agent_host_port w = Raise ex ->
  (forall e s, lookup_agent_host w e s = (s, Raise ex)) /\
  let s := execute [(w, Fire 0)] (__init__ ag) in
  current s = found /\ started s = [] /\
  forall tr, no_reset tr = true -> execute tr s = s.
Proof.
  intros Hres.
  assert (Hl : forall e s, lookup_agent_host w e s = (s, Raise ex)).
  { intros e s. pose proof (lookup_agent_host_cases w e s) as Hc.
    now rewrite Hres in Hc. }
  split; [exact Hl|]. cbv zeta.
  assert (Hs : execute [(w, Fire 0)] (__init__ ag) =
               add_log DEBUG "FSM event"
                 (add_change e_lookup
                    (set_current found (set_started [] (__init__ ag))))).
  { simpl. unfold fsm_lookup. rewrite fysom_event_eq. simpl.
    unfold bind. rewrite Hl. reflexivity. }
  rewrite Hs. split; [reflexivity|]. split; [reflexivity|].
  induction tr as [|[w' [i|]] tr IH]; intros Hnr; [reflexivity| |discriminate].
  simpl in *. apply IH, Hnr.
Qed.

(** ** More on the announce step *)

(** The discovery object, or the exception, in every world. *)
Lemma discovery_result w s :
  snd (discovery w s) =
  match resolveCommandLine w with
  | [] => Raise IndexError
  | nm :: args =>
      let d0 := Discovery_init (<["pid" := PyInt (resolveKernelPid w)]>
                               (<["name" := PyStr nm]>
                               (<["args" := PyList args]> ∅))) in
      if proc_exists w then
        match socket_connect w with
        | Some (fd, Some link) =>
            Ok (setattr (setattr d0 "fd" (PyInt fd)) "inode" (PyStr link))
        | _ => Raise OSError
        end
      else Ok d0
  end.
Proof.
  unfold discovery.
  rewrite (bind_snd _ _ _ tt) by reflexivity.
  rewrite (bind_snd _ _ _ _ (read_cmdline_result w _)).
  rewrite (bind_snd _ _ _ _ (get_real_pid_result w _)).
  destruct (resolveCommandLine w) as [|nm args]; [reflexivity|].
  rewrite bind_ret. cbv zeta.
  destruct (proc_exists w); [|reflexivity].
  destruct (socket_connect w) as [[fd [link|]]|]; reflexivity.
Qed.

Lemma truthy_Some b : truthy b = true -> Some (default "" b) = b.
Proof. destruct b; [reflexivity | discriminate]. Qed.

(** X4: an announce attempt the agent answers stores the answer on the
    agent object, hands the agent one object and starts no timer. Made in
    [announced] it returns [True], takes the machine to [good2go] and calls
    the telemetry start once. Made in any other state (a retry that fires
    after a [reset], say) it raises fysom's error from the ready event and
    leaves the state and the telemetry alone. *)
Theorem announce_answered w e s d :
  snd (discovery w s) = Ok d ->
  truthy (request_response w d) = true ->
  let s' := fst (announce_sensor w e s) in
  from_ (agent s') = request_response w d /\
  sent s' = (sent s ++ [d])%list /\
  started s' = started s /\
  host (agent s') = host (agent s) /\ port (agent s') = port (agent s) /\
  (current s = announced ->
   snd (announce_sensor w e s) = Ok true /\ current s' = good2go /\
   meter_runs (agent s') = (meter_runs (agent s) ++ [good2go])%list) /\
  (current s <> announced ->
   snd (announce_sensor w e s) = Raise (FysomError "ready") /\
   current s' = current s /\ meter_runs (agent s') = meter_runs (agent s)).
Proof.
  intros Hd Hb. cbv zeta.
  pose proof (announce_sensor_cases w e s) as Hc. rewrite Hd, Hb in Hc.
  cbv zeta in Hc.
  destruct (discovery_frame w s) as (Ha & Hcu & _ & _ & Hst & _ & Hse).
  case_bool_decide as Hann; rewrite Hc; simpl;
    rewrite ?Ha, ?Hcu, ?Hst, ?Hse, (truthy_Some _ Hb);
    repeat split; try reflexivity; try (intros; contradiction);
    try (intros; congruence).
Qed.

(** X5: the ways [announce_sensor] raises. Each leaves the pending timers
    and the state of the machine as they were, so none is retried: a
    socket to port 42699 that cannot be opened or read back on a host with
    /proc, or an empty command line, before anything is sent; fysom's
    error after an answered announce made outside [announced]. *)
Theorem announce_raises_without_retry w e s ex :
  snd (announce_sensor w e s) = Raise ex ->
  let s' := fst (announce_sensor w e s) in
  started s' = started s /\ current s' = current s /\
  meter_runs (agent s') = meter_runs (agent s) /\
  ((ex = OSError /\ proc_exists w = true /\
    (socket_connect w = None \/ exists fd, socket_connect w = Some (fd, None)) /\
    sent s' = sent s /\ agent s' = agent s) \/
   (ex = IndexError /\ resolveCommandLine w = [] /\
    sent s' = sent s /\ agent s' = agent s) \/
   (ex = FysomError "ready" /\ current s <> announced /\
    exists d, sent s' = (sent s ++ [d])%list /\
              truthy (request_response w d) = true)).
Proof.
  cbv zeta.
  pose proof (announce_sensor_cases w e s) as Hc.
  pose proof (discovery_result w s) as Hr.
  destruct (discovery_frame w s) as (Ha & Hcu & _ & _ & Hst & _ & Hse).
  destruct (snd (discovery w s)) as [d|ex0] eqn:Hd.
  - cbv zeta in Hc. destruct (truthy (request_response w d)) eqn:Hb.
    + case_bool_decide as Hann; rewrite Hc; simpl; [discriminate|].
      intros Hex. inversion Hex; subst ex.
      rewrite Ha, Hcu, Hst, Hse. repeat split; try reflexivity.
      right. right. repeat split; [exact Hann|]. exists d. auto.
    + rewrite Hc. discriminate.
  - rewrite Hc. simpl. intros Hex. inversion Hex; subst ex0.
    rewrite Ha, Hcu, Hst, Hse. repeat split; try reflexivity.
    destruct (resolveCommandLine w) as [|nm args].
    + inversion Hr; subst. right. left. auto.
    + cbv zeta in Hr. destruct (proc_exists w); [|discriminate].
      destruct (socket_connect w) as [[fd [link|]]|]; try discriminate;
        inversion Hr; subst; left; repeat split; eauto.
Qed.

(** X6: an announce attempt that returns [False] has handed the agent one
    object, got an empty or no answer to it, and started exactly one retry
    timer, named "announce", that calls [announce_sensor] with the same
    event object; the state of the machine and the agent object are as
    they were. *)
Theorem announce_false_schedules_one_retry w e s :
  snd (announce_sensor w e s) = Ok false ->
  let s' := fst (announce_sensor w e s) in
  started s' = (started s ++ [retry (announce_sensor_target e) "announce"])%list /\
  timer s' = Some (retry (announce_sensor_target e) "announce") /\
  current s' = current s /\ agent s' = agent s /\
  exists d, snd (discovery w s) = Ok d /\
            sent s' = (sent s ++ [d])%list /\
            truthy (request_response w d) = false.
Proof.
  cbv zeta.
  pose proof (announce_sensor_cases w e s) as Hc.
  destruct (discovery_frame w s) as (Ha & Hcu & _ & _ & Hst & _ & Hse).
  destruct (snd (discovery w s)) as [d|ex0] eqn:Hd.
  - cbv zeta in Hc. destruct (truthy (request_response w d)) eqn:Hb.
    + case_bool_decide as Hann; rewrite Hc; simpl; discriminate.
    + rewrite Hc. simpl. intros _. rewrite Ha, Hcu, Hst, Hse.
      repeat split; try reflexivity. exists d. auto.
  - rewrite Hc. discriminate.
Qed.

(** X7: the whole handshake in one run. When the probe of the resolved
    host returns the agent's header and the agent answers the announce, the
    startup timer alone takes a new machine through found and announced to
    good2go: the endpoint and the agent's answer are on the agent object,
    one object was sent, the telemetry start was called once, the three
    state changes were reported in order and no timer is left pending. *)
Theorem startup_completes_handshake w ag h p d :
  __get_agent_host_port w = Ok (h, p) ->
  request_header w h = Some AGENT_HEADER ->
  snd (discovery w (__init__ ag)) = Ok d ->
  truthy (request_response w d) = true ->
  let s := execute [(w, Fire 0)] (__init__ ag) in
  current s = good2go /\
  host (agent s) = Some h /\ port (agent s) = Some p /\
  from_ (agent s) = request_response w d /\
  sent s = [d] /\
  meter_runs (agent s) = (meter_runs ag ++ [good2go])%list /\
  changes s = [e_lookup; e_announce; e_ready] /\
  started s = [] /\ timer s = None.
Proof.
  intros Hres Hh Hd Hb. cbv zeta.
  assert (Hs : execute [(w, Fire 0)] (__init__ ag) =
               fst (lookup_agent_host w e_lookup
                      (add_log DEBUG "FSM event"
                         (add_change e_lookup
                            (set_current found (set_started [] (__init__ ag))))))).
  { simpl. unfold fsm_lookup. rewrite fysom_event_eq. simpl. apply fst_drop. }
  rewrite Hs. clear Hs.
  match goal with |- context [lookup_agent_host w e_lookup ?s0] =>
    pose proof (lookup_agent_host_cases w e_lookup s0) as Hc; set (sl := s0) in * end.
  rewrite Hres in Hc. cbv zeta in Hc.
  rewrite (bool_decide_eq_true_2 _ Hh) in Hc. rewrite Hc, found_path_fst.
  match goal with |- context [fsm_announce w ?s0] =>
    pose proof (fsm_announce_cases w s0) as Ha; set (s2 := s0) in * end.
  rewrite bool_decide_eq_true_2 in Ha by reflexivity. rewrite Ha.
  match goal with |- context [announce_sensor w e_announce ?s0] =>
    pose proof (announce_sensor_cases w e_announce s0) as Hn;
    destruct (discovery_frame w s0) as (Hag & Hcu & Hti & _ & Hst & Hch & Hse);
    set (s3 := s0) in * end.
  rewrite (discovery_indep w s3 (__init__ ag)), Hd, Hb in Hn. cbv zeta in Hn.
  rewrite bool_decide_eq_true_2 in Hn by reflexivity. rewrite Hn. simpl.
  rewrite Hag, Hst, Hch, Hse, Hti, (truthy_Some _ Hb). simpl.
  repeat split; reflexivity.
Qed.

(** X18: [reset] runs the whole handshake again. Called in any state but
    [found], with an agent that answers the probe and the announce, it
    takes the machine through found and announced to good2go, records the
    endpoint and the agent's answer, sends one more object and calls the
    telemetry start once more; the timers that were pending stay pending. *)
Theorem reset_completes_handshake w s h p d :
  __get_agent_host_port w = Ok (h, p) ->
  request_header w h = Some AGENT_HEADER ->
  snd (discovery w s) = Ok d ->
  truthy (request_response w d) = true ->
  current s <> found ->
  let s' := fst (reset w s) in
  current s' = good2go /\
  host (agent s') = Some h /\ port (agent s') = Some p /\
  from_ (agent s') = request_response w d /\
  sent s' = (sent s ++ [d])%list /\
  meter_runs (agent s') = (meter_runs (agent s) ++ [good2go])%list /\
  changes s' =
    (changes s ++ [mkEvent "lookup" (current s) found; e_announce; e_ready])%list /\
  started s' = started s.
Proof.
  intros Hres Hh Hd Hb Hnf. cbv zeta. unfold reset.
  rewrite fsm_lookup_fst, bool_decide_eq_false_2 by exact Hnf.
  match goal with |- context [lookup_agent_host w ?e0 ?s0] =>
    pose proof (lookup_agent_host_cases w e0 s0) as Hc; set (sl := s0) in * end.
  rewrite Hres in Hc. cbv zeta in Hc.
  rewrite (bool_decide_eq_true_2 _ Hh) in Hc. rewrite Hc, found_path_fst.
  match goal with |- context [fsm_announce w ?s0] =>
    pose proof (fsm_announce_cases w s0) as Ha; set (s2 := s0) in * end.
  rewrite bool_decide_eq_true_2 in Ha by reflexivity. rewrite Ha.
  match goal with |- context [announce_sensor w e_announce ?s0] =>
    pose proof (announce_sensor_cases w e_announce s0) as Hn;
    destruct (discovery_frame w s0) as (Hag & Hcu & Hti & _ & Hst & Hch & Hse);
    set (s3 := s0) in * end.
  rewrite (discovery_indep w s3 s), Hd, Hb in Hn. cbv zeta in Hn.
  rewrite bool_decide_eq_true_2 in Hn by reflexivity. rewrite Hn. simpl.
  rewrite Hag, Hst, Hch, Hse, (truthy_Some _ Hb). simpl.
  rewrite <- !app_assoc. simpl. repeat split; reflexivity.
Qed.

(** ** More on whole executions *)

Lemma retry_lookup_well_formed e :
  event e = "lookup" -> dst e = found ->
  well_formed_timer (retry (lookup_agent_host_target e) "agent_lookup").
Proof. intros He Hd. repeat split; assumption. Qed.

Lemma retry_announce_well_formed :
  well_formed_timer (retry (announce_sensor_target e_announce) "announce").
Proof. repeat split. Qed.

(** A step starts at most one timer. *)
Lemma announce_sensor_timers w e s :
  started (fst (announce_sensor w e s)) = started s \/
  started (fst (announce_sensor w e s)) =
    (started s ++ [retry (announce_sensor_target e) "announce"])%list.
Proof.
  pose proof (announce_sensor_cases w e s) as Hc.
  destruct (discovery_frame w s) as (_ & _ & _ & _ & Hst & _).
  destruct (snd (discovery w s)) as [d|ex0].
  - cbv zeta in Hc. destruct (truthy (request_response w d)).
    + case_bool_decide; rewrite Hc; simpl; auto.
    + rewrite Hc. simpl. rewrite Hst. auto.
  - rewrite Hc. simpl. auto.
Qed.

Lemma fsm_announce_timers w s :
  started (fst (fsm_announce w s)) = started s \/
  started (fst (fsm_announce w s)) =
    (started s ++ [retry (announce_sensor_target e_announce) "announce"])%list.
Proof.
  pose proof (fsm_announce_cases w s) as Hc. case_bool_decide.
  - rewrite Hc.
    match goal with |- context [announce_sensor w ?e0 ?s0] =>
      destruct (announce_sensor_timers w e0 s0) as [Ht|Ht]; rewrite Ht end;
      simpl; auto.
  - rewrite Hc. auto.
Qed.

Lemma lookup_agent_host_timers w e s :
  exists l,
    started (fst (lookup_agent_host w e s)) = (started s ++ l)%list /\
    (l = [] \/ l = [retry (lookup_agent_host_target e) "agent_lookup"] \/
     l = [retry (announce_sensor_target e_announce) "announce"]).
Proof.
  assert (Hfound : forall h p s1, R_log_only s s1 ->
            exists l, started (fst (found_path w h p s1)) = (started s ++ l)%list /\
              (l = [] \/ l = [retry (lookup_agent_host_target e) "agent_lookup"] \/
               l = [retry (announce_sensor_target e_announce) "announce"])).
  { intros h p s1 (_ & _ & _ & _ & Hst & _). rewrite found_path_fst.
    match goal with |- context [fsm_announce w ?s0] =>
      destruct (fsm_announce_timers w s0) as [Ht|Ht]; rewrite Ht end;
      simpl; rewrite Hst.
    - exists []. rewrite app_nil_r. auto.
    - eexists. split; [reflexivity|]. auto. }
  assert (Hnot : forall s1, R_log_only s s1 ->
            exists l, started (fst (not_found_path e s1)) = (started s ++ l)%list /\
              (l = [] \/ l = [retry (lookup_agent_host_target e) "agent_lookup"] \/
               l = [retry (announce_sensor_target e_announce) "announce"])).
  { intros s1 Hs1. destruct (not_found_path_frame e s s1 Hs1) as (_ & Ht & _).
    rewrite Ht. eexists. split; [reflexivity|]. auto. }
  lookup_paths w e s; rewrite Hcases.
  - apply Hfound, log_only_1.
  - apply Hfound, log_only_3.
  - apply Hnot, log_only_3.
  - apply Hnot, log_only_2.
  - apply Hnot, log_only_2.
  - apply Hnot, log_only_1.
  - exists []. simpl. rewrite app_nil_r. auto.
Qed.

Lemma call_timers w t s :
  target_ok t ->
  exists l,
    started (fst (call w t s)) = (started s ++ l)%list /\
    (length l <= 1)%nat /\ Forall well_formed_timer l.
Proof.
  assert (Hl : forall e s0, event e = "lookup" -> dst e = found ->
            exists l, started (fst (lookup_agent_host w e s0)) = (started s0 ++ l)%list /\
                      (length l <= 1)%nat /\ Forall well_formed_timer l).
  { intros e s0 He Hd.
    destruct (lookup_agent_host_timers w e s0) as (l & Hst & [->|[->| ->]]);
      eexists; (split; [exact Hst|]); simpl; (split; [lia|]).
    - constructor.
    - apply Forall_singleton. now apply retry_lookup_well_formed.
    - apply Forall_singleton. apply retry_announce_well_formed. }
  destruct t as [|e|e]; simpl.
  - intros _. rewrite fsm_lookup_fst.
    match goal with |- context [lookup_agent_host w ?e0 ?s0] =>
      destruct (Hl e0 s0) as (l & Hst & Hlen & Hwf); [reflexivity | reflexivity |] end.
    exists l. rewrite Hst. case_bool_decide; simpl; auto.
  - intros [He Hd]. rewrite fst_drop. now apply Hl.
  - intros ->. rewrite fst_drop.
    destruct (announce_sensor_timers w e_announce s) as [Ht|Ht]; rewrite Ht.
    + exists []. rewrite app_nil_r. simpl. repeat split; auto.
    + eexists. split; [reflexivity|]. simpl. split; [lia|].
      apply Forall_singleton. apply retry_announce_well_formed.
Qed.

Lemma well_formed_target_ok t : well_formed_timer t -> target_ok (target t).
Proof.
  unfold well_formed_timer, target_ok. intros [_ H].
  destruct (target t); tauto.
Qed.

Lemma step_timers s wa :
  Forall well_formed_timer (started s) ->
  Forall well_formed_timer (started (step s wa)) /\
  (is_reset (snd wa) = false ->
   (length (started s) <= 1 -> length (started (step s wa)) <= 1)%nat).
Proof.
  intros Hwf. destruct wa as [w [i|]]; simpl.
  - destruct (started s !! i) as [t|] eqn:Ht; [|auto].
    assert (Hok : target_ok (target t)).
    { apply well_formed_target_ok. rewrite Forall_lookup in Hwf. eauto. }
    set (s0 := set_started (delete i (started s)) s).
    destruct (call_timers w (target t) s0 Hok) as (l & Hst & Hlen & Hl).
    rewrite Hst. subst s0. simpl. split.
    + apply Forall_app. split; [now apply Forall_delete | exact Hl].
    + intros _ Hone. rewrite length_app, length_delete by eauto. lia.
  - destruct (call_timers w fsm_lookup_target s I) as (l & Hst & Hlen & Hl).
    simpl in Hst. unfold reset. rewrite Hst. split.
    + apply Forall_app. auto.
    + discriminate.
Qed.

(** X8: in an execution without a call of [reset] at most one timer is
    pending at any time: each step is retried only from its own failure,
    after the timer that ran it is gone. *)
Theorem one_timer_pending_without_reset ag tr :
  no_reset tr = true ->
  (length (started (execute tr (__init__ ag))) <= 1)%nat.
Proof.
  assert (H : no_reset tr = true ->
              Forall well_formed_timer (started (execute tr (__init__ ag))) /\
              (length (started (execute tr (__init__ ag))) <= 1)%nat);
    [|intros Hnr; apply H, Hnr].
  induction tr as [|wa tr IH] using rev_ind; intros Hnr.
  - simpl. split; [|lia]. repeat constructor.
  - rewrite no_reset_snoc in Hnr. apply andb_true_iff in Hnr as [Hnr Hwa].
    destruct (IH Hnr) as [Hwf Hlen]. rewrite execute_snoc.
    destruct (step_timers _ wa Hwf) as [Hwf' Hlen'].
    split; [exact Hwf'|]. apply Hlen'; [|exact Hlen].
    now apply negb_true_iff.
Qed.

(** X9: in any execution every pending timer is a daemon; the startup
    timer has a delay of 2 and calls the lookup event, a timer named
    "agent_lookup" has a delay of [RETRY_PERIOD] and calls
    [lookup_agent_host] with the event object of a lookup event, and a
    timer named "announce" has the same delay and calls [announce_sensor]
    with the event object of the announce event. *)
Theorem pending_timers_well_formed ag tr :
  Forall well_formed_timer (started (execute tr (__init__ ag))).
Proof.
  induction tr as [|wa tr IH] using rev_ind.
  - simpl. repeat constructor.
  - rewrite execute_snoc. now apply step_timers.
Qed.

Lemma agent_ready_same s s' :
  agent s' = agent s -> current s' = current s -> agent_ready s -> agent_ready s'.
Proof. unfold agent_ready. intros -> ->. tauto. Qed.

Lemma announce_sensor_agent_ready w e s :
  agent_ready s -> agent_ready (fst (announce_sensor w e s)).
Proof.
  intros Hr.
  pose proof (announce_sensor_cases w e s) as Hc.
  destruct (discovery_frame w s) as (Ha & Hcu & _).
  destruct (snd (discovery w s)) as [d|ex0].
  - cbv zeta in Hc. destruct (truthy (request_response w d)).
    + case_bool_decide as Hann; rewrite Hc; unfold agent_ready in *; simpl;
        rewrite Ha, ?Hcu; [rewrite Hann in Hr; simpl in Hr|];
        split; eauto; intros; apply Hr; auto.
    + rewrite Hc. apply (agent_ready_same s); simpl; auto.
  - rewrite Hc. simpl. now apply (agent_ready_same s).
Qed.

Lemma fsm_announce_agent_ready w s :
  is_Some (host (agent s)) -> is_Some (port (agent s)) ->
  agent_ready s -> agent_ready (fst (fsm_announce w s)).
Proof.
  intros Hh Hp Hr. pose proof (fsm_announce_cases w s) as Hc.
  case_bool_decide as Hf; rewrite Hc; [|exact Hr].
  apply announce_sensor_agent_ready. unfold agent_ready. simpl.
  split; [auto | discriminate].
Qed.

Lemma lookup_agent_host_agent_ready w e s :
  agent_ready s -> agent_ready (fst (lookup_agent_host w e s)).
Proof.
  intros Hr.
  assert (Hfound : forall h p s1, R_log_only s s1 ->
            agent_ready (fst (found_path w h p s1))).
  { intros h p s1 (Ha & Hc & _). rewrite found_path_fst.
    apply fsm_announce_agent_ready; simpl; eauto.
    unfold agent_ready in *. simpl. rewrite Ha, Hc. split; [eauto | apply Hr]. }
  assert (Hnot : forall s1, R_log_only s s1 ->
            agent_ready (fst (not_found_path e s1))).
  { intros s1 Hs1.
    destruct (not_found_path_frame e s s1 Hs1) as (_ & _ & _ & Hc & Ha & _).
    now apply (agent_ready_same s). }
  lookup_paths w e s; rewrite Hcases;
    auto using log_only_1, log_only_2, log_only_3.
Qed.

Lemma call_agent_ready w t s : agent_ready s -> agent_ready (fst (call w t s)).
Proof.
  intros Hr. destruct t as [|e|e]; simpl.
  - rewrite fsm_lookup_fst. apply lookup_agent_host_agent_ready.
    case_bool_decide; [exact Hr|].
    unfold agent_ready. simpl. split; [lia | discriminate].
  - rewrite fst_drop. now apply lookup_agent_host_agent_ready.
  - rewrite fst_drop. now apply announce_sensor_agent_ready.
Qed.

(** X10: in any execution the agent object holds a host and a port
    whenever the machine is in [announced] or [good2go], and the agent's
    answer whenever it is in [good2go]: the steps set the attributes before
    they fire the event that tells. *)
Theorem agent_ready_in_every_state ag tr :
  agent_ready (execute tr (__init__ ag)).
Proof.
  induction tr as [|[w a] tr IH] using rev_ind.
  - unfold agent_ready. simpl. split; [lia | discriminate].
  - rewrite execute_snoc. destruct a as [i|]; simpl.
    + destruct (started _ !! i) as [t|]; [|exact IH].
      apply call_agent_ready. now apply (agent_ready_same (execute tr (__init__ ag))).
    + apply (call_agent_ready w fsm_lookup_target), IH.
Qed.

Lemma follow_snoc st l e :
  follow st (l ++ [e]) =
  match follow st l with
  | Some c =>
      if (bool_decide (src e = c) &&
          bool_decide (fysom_dst (event e) (src e) = Some (dst e)))%bool
      then Some (dst e) else None
  | None => None
  end.
Proof.
  revert st. induction l as [|e0 l IH]; intros st; simpl.
  - destruct (_ && _)%bool; reflexivity.
  - destruct (_ && _)%bool; [apply IH | reflexivity].
Qed.

Lemma changes_lead_here_same s s' :
  changes s' = changes s -> current s' = current s ->
  changes_lead_here s -> changes_lead_here s'.
Proof. unfold changes_lead_here. now intros -> ->. Qed.

Lemma changes_lead_here_step (e : Event) s :
  src e = current s -> fysom_dst (event e) (src e) = Some (dst e) ->
  changes_lead_here s ->
  changes_lead_here (add_change e (set_current (dst e) s)).
Proof.
  unfold changes_lead_here. intros Hs Hd Hl. simpl.
  rewrite follow_snoc, Hl.
  rewrite !bool_decide_eq_true_2 by assumption. reflexivity.
Qed.

Lemma changes_lead_here_call w t :
  keeps (fun s s' => changes_lead_here s -> changes_lead_here s') (call w t).
Proof.
  apply keeps_call.
  - auto.
  - auto.
  - intros l msg s _. now apply changes_lead_here_same.
  - intros d s. now apply changes_lead_here_same.
  - intros b s. now apply changes_lead_here_same.
  - intros fn nm s _. now apply changes_lead_here_same.
  - intros s. rewrite fsm_ready_eq. case_bool_decide as Hc; [|auto].
    intros Hl. simpl.
    apply (changes_lead_here_same
             (add_change e_ready (set_current good2go s))); try reflexivity.
    now apply (changes_lead_here_step e_ready).
  - intros h p s. now apply changes_lead_here_same.
  - intros s. rewrite warn_once_eq. destruct (warnedPeriodic s); [auto|].
    now apply changes_lead_here_same.
  - intros s Hc. now apply (changes_lead_here_step e_announce).
  - intros s Hc. apply (changes_lead_here_step (mkEvent "lookup" (current s) found));
      [reflexivity | apply fysom_dst_lookup].
Qed.

(** X11: in any execution the state changes reported to
    [printstatechange] form a path through the event table: the first
    starts in fysom's initial state, each starts where the one before
    ended, each is a row of the table, and the last ends in the current
    state. No change of state goes unreported. *)
Theorem reported_changes_lead_to_current_state ag tr :
  follow none (changes (execute tr (__init__ ag))) =
  Some (current (execute tr (__init__ ag))).
Proof.
  induction tr as [|[w a] tr IH] using rev_ind; [reflexivity|].
  rewrite execute_snoc. destruct a as [i|]; simpl.
  - destruct (started _ !! i) as [t|]; [|exact IH].
    apply (changes_lead_here_call w (target t)).
    now apply (changes_lead_here_same (execute tr (__init__ ag))).
  - apply (changes_lead_here_call w fsm_lookup_target), IH.
Qed.

(** ** The resolvers, input by input *)

(** X12: with neither host variable set the port variable is not read, so
    the resolution cannot fail whatever it holds; the configured host is
    used when it is not empty, with the configured port when that is not 0,
    and a configured port without a configured host is ignored. *)
Theorem get_agent_host_port_without_env_host w :
  os_environ w !! "INSTANA_AGENT_HOST" = None ->
  os_environ w !! "INSTANA_AGENT_IP" = None ->
  __get_agent_host_port w =
  Ok (if bool_decide (agent_host (options w) = "")
      then (AGENT_DEFAULT_HOST, AGENT_DEFAULT_PORT)
      else (agent_host (options w),
            if bool_decide (agent_port (options w) = 0)
            then AGENT_DEFAULT_PORT else agent_port (options w))).
Proof.
  intros Hh Hi. unfold __get_agent_host_port. rewrite Hh, Hi.
  repeat case_bool_decide; reflexivity.
Qed.

Lemma digit_of_digit_char d : (d < 10)%nat -> digit_of (digit_char d) = Some (Z.of_nat d).
Proof. intros H. do 10 (destruct d as [|d]; [reflexivity|]). lia. Qed.

Lemma digits_then_comma_cons d l acc :
  (d < 10)%nat ->
  digits_then_comma acc (digit_char d :: l) =
  digits_then_comma (Some (10 * default 0 acc + Z.of_nat d)) l.
Proof.
  intros Hd. change (digits_then_comma acc (digit_char d :: l)) with
    (match digit_of (digit_char d) with
     | Some d0 => digits_then_comma (Some (10 * default 0 acc + d0)) l
     | None => if Ascii.eqb (digit_char d) ","%char then acc else None
     end).
  now rewrite (digit_of_digit_char d Hd).
Qed.

Lemma digits_then_comma_digits ds : forall acc post,
  Forall (fun d => (d < 10)%nat) ds ->
  digits_then_comma acc ((digit_char <$> ds) ++ ","%char :: post) =
  match ds, acc with
  | [], None => None
  | _, _ => Some (fold_left (fun a d => 10 * a + Z.of_nat d) ds (default 0 acc))
  end.
Proof.
  induction ds as [|d ds IH]; intros acc post Hds.
  - destruct acc; reflexivity.
  - inversion Hds as [|? ? Hd Hds']; subst.
    rewrite fmap_cons, <- app_comm_cons, (digits_then_comma_cons d _ acc Hd).
    rewrite (IH _ post Hds'). cbn [fold_left default].
    destruct ds; reflexivity.
Qed.

Lemma re_search_pid_paren l :
  re_search_pid ("("%char :: l) =
  match digits_then_comma None l with
  | Some n => Some n
  | None => re_search_pid l
  end.
Proof. reflexivity. Qed.

Lemma re_search_pid_skip pre : forall rest,
  "("%char ∉ pre -> re_search_pid (pre ++ rest) = re_search_pid rest.
Proof.
  induction pre as [|c pre IH]; intros rest Hn; [reflexivity|].
  apply not_elem_of_cons in Hn as [Hc Hn]. simpl.
  destruct (Ascii.eqb c "(") eqn:E; [apply Ascii.eqb_eq in E; congruence|].
  now apply IH.
Qed.

Lemma re_search_pid_none l : "("%char ∉ l -> re_search_pid l = None.
Proof.
  intros H. rewrite <- (app_nil_r l). now rewrite re_search_pid_skip.
Qed.

(** X13: the process id is read from a first line of /proc/<pid>/sched of
    the kernel's layout: anything without an opening parenthesis, then the
    parenthesis, the id in decimal digits and a comma. *)
Theorem get_real_pid_reads_sched_line w s line pre ds post :
  proc_exists w = true ->
  sched_line w = Some (Some line) ->
  list_ascii_of_string line =
    (pre ++ "("%char :: (digit_char <$> ds) ++ ","%char :: post)%list ->
  "("%char ∉ pre ->
  ds <> [] ->
  Forall (fun d => (d < 10)%nat) ds ->
  snd (__get_real_pid w s) = Ok (digits_value ds) /\
  log (fst (__get_real_pid w s)) = log s.
Proof.
  intros Hproc Hsched Hline Hpre Hne Hds.
  assert (Hparse : re_search_pid (list_ascii_of_string line) = Some (digits_value ds)).
  { rewrite Hline, re_search_pid_skip by exact Hpre.
    rewrite re_search_pid_paren, digits_then_comma_digits by exact Hds.
    destruct ds; [congruence | reflexivity]. }
  unfold __get_real_pid, bind, ret. rewrite Hproc, Hsched, Hparse. simpl. auto.
Qed.

(** X14: [__get_real_pid] never raises, and it returns the id of
    [os.getpid] when there is no /proc, when /proc/<pid>/sched is no file or
    cannot be read, and when its first line has no opening parenthesis. *)
Theorem get_real_pid_falls_back w s :
  (exists n, snd (__get_real_pid w s) = Ok n) /\
  (proc_exists w = false \/ sched_line w = None \/ sched_line w = Some None \/
   (exists line, sched_line w = Some (Some line) /\
                 "("%char ∉ list_ascii_of_string line) ->
   snd (__get_real_pid w s) = Ok (os_getpid w)).
Proof.
  split; [rewrite get_real_pid_result; eauto|].
  rewrite get_real_pid_result. unfold resolveKernelPid.
  intros [-> | [-> | [-> | (line & -> & Hl)]]]; try reflexivity;
    destruct (proc_exists w); try reflexivity.
  now rewrite re_search_pid_none.
Qed.

Lemma split_acc_no_sep sep l : forall cur,
  sep ∉ l -> split_acc sep cur l = [string_of_list_ascii (rev cur ++ l)].
Proof.
  induction l as [|c l IH]; intros cur Hn; simpl.
  - now rewrite app_nil_r.
  - apply not_elem_of_cons in Hn as [Hc Hn].
    destruct (Ascii.eqb c sep) eqn:E; [apply Ascii.eqb_eq in E; congruence|].
    rewrite IH by exact Hn. simpl. now rewrite <- app_assoc.
Qed.

Lemma split_acc_piece sep a : forall cur rest,
  sep ∉ a ->
  split_acc sep cur (a ++ sep :: rest) =
  string_of_list_ascii (rev cur ++ a) :: split_acc sep [] rest.
Proof.
  induction a as [|c a IH]; intros cur rest Hn; simpl.
  - rewrite Ascii.eqb_refl. now rewrite app_nil_r.
  - apply not_elem_of_cons in Hn as [Hc Hn].
    destruct (Ascii.eqb c sep) eqn:E; [apply Ascii.eqb_eq in E; congruence|].
    rewrite IH by exact Hn. simpl. now rewrite <- app_assoc.
Qed.

Lemma split_acc_terminated sep l :
  Forall (fun a => sep ∉ a) l ->
  split_acc sep [] (terminated sep l) =
  ((string_of_list_ascii <$> l) ++ [""])%list.
Proof.
  induction l as [|a l IH]; intros Hl; [reflexivity|].
  inversion Hl as [|? ? Ha Hl']; subst.
  cbn [terminated]. rewrite split_acc_piece by exact Ha.
  rewrite fmap_cons, IH by exact Hl'. reflexivity.
Qed.

(** X15: on a host whose /proc/self/cmdline holds the arguments of the
    process, each followed by a null byte, the command line the announce
    step works with is those arguments followed by one empty string: the
    split on the null byte yields a last, empty piece after the final
    terminator. No debug line is logged and nothing else is consulted. *)
Theorem read_cmdline_of_proc w s cmdinfo argv :
  proc_self_cmdline w = Some (Some cmdinfo) ->
  list_ascii_of_string cmdinfo = terminated "000"%char argv ->
  Forall (fun a => "000"%char ∉ a) argv ->
  read_cmdline w s = (s, Ok ((string_of_list_ascii <$> argv) ++ [""])%list).
Proof.
  intros Hc Hinfo Hargv. unfold read_cmdline. rewrite Hc.
  unfold py_split. rewrite Hinfo, split_acc_terminated by exact Hargv.
  reflexivity.
Qed.

(** X16: without a readable /proc/self/cmdline the command line falls
    back to [sys.argv], with a debug line, whenever the file cannot be
    read, ps cannot be run, or the output of ps has no second line. *)
Theorem read_cmdline_falls_back w s :
  proc_self_cmdline w = Some None \/
  (proc_self_cmdline w = None /\ ps_output w = None) \/
  (exists out, proc_self_cmdline w = None /\ ps_output w = Some out /\
               "010"%char ∉ list_ascii_of_string out) ->
  read_cmdline w s = (add_log DEBUG "announce_sensor" s, Ok (sys_argv w)).
Proof.
  unfold read_cmdline.
  intros [-> | [[-> ->] | (out & -> & -> & Hout)]]; try reflexivity.
  unfold py_split. now rewrite split_acc_no_sep.
Qed.

(** ** More on the discovery record *)

(** X20: the socket attributes of the discovery object an announce attempt
    hands to the agent. On a host with /proc the object has fd and inode
    set, to the descriptor of the connection to port 42699 and to the link
    read from /proc/<pid>/fd/<fd>. On a host without /proc neither is set
    on the object, which then carries pid, name and args only; reading
    them from it gives the class attributes, -1 and the empty string. *)
Theorem discovery_object_socket_attributes w e s d :
  snd (discovery w s) = Ok d ->
  sent (fst (announce_sensor w e s)) = (sent s ++ [d])%list /\
  if proc_exists w then
    exists fd link,
      socket_connect w = Some (fd, Some link) /\
      d !! "fd" = Some (PyInt fd) /\ d !! "inode" = Some (PyStr link)
  else
    dom d = ({[ "pid"; "name"; "args" ]} : gset string) /\
    d !! "fd" = None /\ d !! "inode" = None /\
    getattr d "fd" = PyInt (-1) /\ getattr d "inode" = PyStr "".
Proof.
  intros Hd. split; [now apply announce_sensor_sent|].
  destruct (discovery_cases w s d Hd) as (nm & args & _ & Hcase).
  cbv zeta in Hcase. rewrite Discovery_init_eq in Hcase.
  destruct (proc_exists w).
  - destruct Hcase as (fd & link & Hs & ->). exists fd, link.
    unfold setattr. split; [exact Hs|]. split; now simplify_map_eq.
  - subst d. split.
    + rewrite !dom_insert_L, dom_empty_L. set_solver.
    + unfold getattr. repeat split; now simplify_map_eq.
Qed.

End HandshakeProperties.

(** ** The machine in the sample worlds *)

Section Scenarios.

#[local] Existing Instance example_const.



Lemma lookup_failure_schedules_retry_witness :
  __get_agent_host_port w_no_agent = Ok ("localhost", 42699) /\
  request_header w_no_agent "localhost" <> Some AGENT_HEADER /\
  proc_exists w_no_agent = false /\
  snd (lookup_agent_host w_no_agent e_lookup s_no_agent) = Ok false /\
  current (fst (lookup_agent_host w_no_agent e_lookup s_no_agent)) = found.
Proof.
  assert (Hr : __get_agent_host_port w_no_agent = Ok ("localhost", 42699))
    by reflexivity.
  assert (Hh : request_header w_no_agent "localhost" <> Some AGENT_HEADER)
    by discriminate.
  assert (Hp : proc_exists w_no_agent = false) by reflexivity.
  split; [exact Hr|]. split; [exact Hh|]. split; [exact Hp|].
  destruct (lookup_failure_schedules_retry
              w_no_agent e_lookup s_no_agent "localhost" 42699 Hr Hh Hp)
    as (H1 & _ & H3 & _).
  split; [exact H1 | rewrite H3; reflexivity].
Defined.

(** The startup run with no agent on a host without /proc: the probe of the
    resolved host gets no header, one retry named "agent_lookup" is
    pending, and the machine is in [found], not in its initial state. *)
Lemma lookup_failure_state_is_found :
  __get_agent_host_port w_no_agent = Ok ("localhost", 42699) /\
  request_header w_no_agent "localhost" = None /\
  proc_exists w_no_agent = false /\
  name <$> started s_no_agent = ["agent_lookup"] /\
  current s_no_agent = found /\
  current s_no_agent <> none.
Proof. repeat split; try reflexivity. vm_compute. discriminate. Qed.

Lemma get_agent_host_port_total_on_valid_port_witness :
  (forall pt, os_environ w_good_port !! "INSTANA_AGENT_PORT" = Some pt ->
              is_Some (py_int pt)) /\
  exists h p, __get_agent_host_port w_good_port = Ok (h, p).
Proof.
  assert (Hport : forall pt,
            os_environ w_good_port !! "INSTANA_AGENT_PORT" = Some pt ->
            is_Some (py_int pt)).
  { intros pt Hpt. vm_compute in Hpt. inversion Hpt. exists 4711. reflexivity. }
  split; [exact Hport|].
  exact (proj1 (get_agent_host_port_total_on_valid_port w_good_port Hport)).
Defined.

(** A host from the environment with a port variable [int] rejects: the
    resolution raises and returns no pair. *)
Lemma get_agent_host_port_raises_on_bad_port :
  os_environ w_bad_port !! "INSTANA_AGENT_PORT" = Some "abc" /\
  __get_agent_host_port w_bad_port = Raise ValueError /\
  ~ exists hp, __get_agent_host_port w_bad_port = Ok hp.
Proof.
  split; [reflexivity|]. split; [reflexivity|]. intros [hp Hhp]. discriminate Hhp.
Qed.

Lemma metric_reporting_once_without_reset_witness :
  meter_runs fresh_agent = [] /\
  no_reset [(w_agent_up, Fire 0)] = true /\
  length (meter_runs (agent s_agent_up)) = 1%nat.
Proof.
  split; [reflexivity|]. split; [reflexivity|].
  exact (proj2 (metric_reporting_once_without_reset
                  fresh_agent [(w_agent_up, Fire 0)] eq_refl) eq_refl).
Defined.

(** A handshake, then a [reset] with the agent still up: the machine is in
    the terminal state and the telemetry start was called twice. *)
Lemma metric_reporting_twice_after_reset :
  current s_agent_up_reset = good2go /\
  meter_runs (agent s_agent_up_reset) = [good2go; good2go] /\
  length (meter_runs (agent s_agent_up_reset)) <> 1%nat.
Proof. repeat split; try reflexivity. vm_compute. discriminate. Qed.

Lemma discovery_object_fields_witness :
  snd (discovery w_namespaced (__init__ fresh_agent)) = Ok d_namespaced /\
  d_namespaced !! "pid" = Some (PyInt (resolveKernelPid w_namespaced)) /\
  resolveKernelPid w_namespaced = 12345.
Proof.
  assert (Hd : snd (discovery w_namespaced (__init__ fresh_agent)) = Ok d_namespaced)
    by (vm_compute; reflexivity).
  split; [exact Hd|]. split; [|reflexivity].
  exact (proj1 (proj2 (discovery_object_fields
                         w_namespaced e_announce (__init__ fresh_agent)
                         d_namespaced Hd))).
Defined.

(** A process that sees itself as 7 and is 12345 to the kernel: the object
    handed to the agent carries 12345 as its pid, and 7 is the value of
    none of its attributes, whether they are read from the instance, by
    attribute lookup, or through [to_dict]. *)
Lemma discovery_object_lacks_reported_pid :
  snd (discovery w_namespaced (__init__ fresh_agent)) = Ok d_namespaced /\
  os_getpid w_namespaced = 7 /\
  d_namespaced !! "pid" = Some (PyInt 12345) /\
  (forall k, d_namespaced !! k <> Some (PyInt 7)) /\
  (forall k, getattr d_namespaced k <> PyInt 7) /\
  (forall k, to_dict d_namespaced !! k <> Some (PyInt 7)).
Proof.
  assert (Hd : snd (discovery w_namespaced (__init__ fresh_agent)) = Ok d_namespaced)
    by (vm_compute; reflexivity).
  assert (Hinst : forall k, d_namespaced !! k <> Some (PyInt 7)).
  { intros k Hk.
    assert (Hin : k ∈ dom d_namespaced) by (apply elem_of_dom; eauto).
    apply (discovery_object_dom _ _ _ Hd) in Hin.
    unfold Discovery_keys in Hin. set_unfold in Hin.
    destruct Hin as [[[[-> | ->] | ->] | ->] | ->];
      vm_compute in Hk; discriminate Hk. }
  assert (Hcls : forall k, default PyNone (Discovery_class !! k) <> PyInt 7).
  { intros k. destruct (Discovery_class !! k) as [v|] eqn:Hk; [|discriminate].
    assert (Hin : k ∈ dom Discovery_class) by (apply elem_of_dom; eauto).
    unfold Discovery_class in Hin. rewrite !dom_insert_L, dom_empty_L in Hin.
    set_unfold in Hin.
    destruct Hin as [-> | [-> | [-> | [-> | [-> | []]]]]];
      vm_compute in Hk; inversion Hk; discriminate. }
  assert (Hget : forall k, getattr d_namespaced k <> PyInt 7).
  { intros k. unfold getattr.
    destruct (d_namespaced !! k) as [v|] eqn:Hk; [|apply Hcls].
    intros ->. now apply (Hinst k). }
  split; [exact Hd|]. split; [reflexivity|].
  split; [vm_compute; reflexivity|].
  split; [exact Hinst|]. split; [exact Hget|].
  intros k Hk.
  assert (Hin : k ∈ dom (to_dict d_namespaced)) by (apply elem_of_dom; eauto).
  rewrite dom_to_dict in Hin. unfold Discovery_keys in Hin. set_unfold in Hin.
  destruct (to_dict_lookup d_namespaced) as (H1 & H2 & H3 & H4 & H5).
  destruct Hin as [[[[-> | ->] | ->] | ->] | ->];
    [rewrite H1 in Hk | rewrite H2 in Hk | rewrite H3 in Hk
     | rewrite H4 in Hk | rewrite H5 in Hk];
    inversion Hk as [Hv]; exact (Hget _ Hv).
Qed.

Lemma lookup_success_records_endpoint_witness :
  __get_agent_host_port w_env_host = Ok ("10.0.0.5", 42699) /\
  request_header w_env_host "10.0.0.5" = Some AGENT_HEADER /\
  host (agent (fst (fsm_lookup w_env_host (__init__ fresh_agent)))) = Some "10.0.0.5" /\
  port (agent (fst (fsm_lookup w_env_host (__init__ fresh_agent)))) = Some 42699.
Proof.
  assert (Hr : __get_agent_host_port w_env_host = Ok ("10.0.0.5", 42699))
    by reflexivity.
  assert (Hh : request_header w_env_host "10.0.0.5" = Some AGENT_HEADER)
    by reflexivity.
  split; [exact Hr|]. split; [exact Hh|].
  destruct (lookup_success_records_endpoint
              w_env_host e_lookup (__init__ fresh_agent) "10.0.0.5" 42699 Hr Hh)
    as (_ & _ & _ & H).
  destruct H as (H1 & H2 & _); [discriminate|].
  split; [exact H1 | exact H2].
Defined.

(** The host comes from the environment and the probe of it returns the
    agent's header: the startup run records that host with the default port
    and leaves the machine in [announced], not in [found]; with an agent
    that answers the announce too it leaves it in [good2go]. *)
Lemma lookup_success_state_is_not_found :
  __get_agent_host_port w_env_host = Ok ("10.0.0.5", 42699) /\
  request_header w_env_host "10.0.0.5" = Some "Instana Agent" /\
  host (agent s_env_host) = Some "10.0.0.5" /\
  port (agent s_env_host) = Some 42699 /\
  current s_env_host = announced /\
  current s_agent_up = good2go /\
  current s_env_host <> found.
Proof. repeat split; try reflexivity. vm_compute. discriminate. Qed.

Lemma get_agent_host_port_precedence_witness :
  first_match w_env_host precedence = Some (PrimaryEnv, "10.0.0.5") /\
  same_up_to PrimaryEnv w_env_host w_env_host_later /\
  __get_agent_host_port w_env_host_later = __get_agent_host_port w_env_host.
Proof.
  assert (Hm : first_match w_env_host precedence = Some (PrimaryEnv, "10.0.0.5"))
    by reflexivity.
  assert (Hs : same_up_to PrimaryEnv w_env_host w_env_host_later)
    by (split; reflexivity).
  split; [exact Hm|]. split; [exact Hs|].
  exact (proj2 (get_agent_host_port_precedence w_env_host)
               PrimaryEnv "10.0.0.5" w_env_host_later Hm Hs).
Defined.

Lemma state_moves_forward_without_reset_witness :
  no_reset ([(w_no_agent, Fire 0)] ++ [(w_agent_up, Fire 0)]) = true /\
  (rank (current s_no_agent) <=
   rank (current (step s_no_agent (w_agent_up, Fire 0))))%nat.
Proof.
  split; [reflexivity|].
  exact (proj1 (state_moves_forward_without_reset
                  fresh_agent [(w_no_agent, Fire 0)] (w_agent_up, Fire 0) eq_refl)).
Defined.

(** What [reset] can do and nothing else does: after a handshake, a [reset]
    that finds no agent takes the machine from [good2go] back to [found]. *)
Lemma reset_moves_backward :
  current s_agent_up = good2go /\ current s_agent_gone = found.
Proof. split; reflexivity. Qed.


(** Three failing lookups, the last one after a [reset]: one warning. *)
Lemma three_failures_one_warning :
  not_found_warnings
    (execute [(w_no_agent, Fire 0); (w_no_agent, Fire 0); (w_no_agent, Reset)]
             (__init__ fresh_agent)) = 1%nat.
Proof. reflexivity. Qed.

(** The scenarios of the resolution order. *)
Lemma resolution_scenarios :
  __get_agent_host_port w_no_agent = Ok ("localhost", 42699) /\
  __get_agent_host_port w_env_host = Ok ("10.0.0.5", 42699) /\
  __get_agent_host_port w_good_port = Ok ("10.0.0.6", 4711) /\
  __get_agent_host_port w_env_host_later = Ok ("10.0.0.5", 42699).
Proof. repeat split; reflexivity. Qed.

End Scenarios.

(** ** More of the machine in the sample worlds *)

Section MoreScenarios.

#[local] Existing Instance example_const.

Lemma lookup_false_schedules_one_retry_witness :
  snd (lookup_agent_host w_no_agent e_lookup s_no_agent) = Ok false /\
  current (fst (lookup_agent_host w_no_agent e_lookup s_no_agent)) = found.
Proof.
  assert (Hf : snd (lookup_agent_host w_no_agent e_lookup s_no_agent) = Ok false)
    by reflexivity.
  split; [exact Hf|].
  destruct (lookup_false_schedules_one_retry w_no_agent e_lookup s_no_agent Hf)
    as (_ & _ & Hc & _).
  rewrite Hc. reflexivity.
Defined.

Lemma lookup_falls_back_to_gateway_witness :
  __get_agent_host_port w_gateway = Ok ("localhost", 42699) /\
  request_header w_gateway "localhost" <> Some AGENT_HEADER /\
  proc_exists w_gateway = true /\
  ip_route w_gateway = Some "192.168.1.1" /\
  "192.168.1.1" <> "" /\
  request_header w_gateway "192.168.1.1" = Some AGENT_HEADER /\
  host (agent (fst (lookup_agent_host w_gateway e_lookup s_no_agent))) =
    Some "192.168.1.1" /\
  port (agent (fst (lookup_agent_host w_gateway e_lookup s_no_agent))) = Some 42699.
Proof.
  assert (H1 : __get_agent_host_port w_gateway = Ok ("localhost", 42699))
    by reflexivity.
  assert (H2 : request_header w_gateway "localhost" <> Some AGENT_HEADER)
    by discriminate.
  assert (H3 : proc_exists w_gateway = true) by reflexivity.
  assert (H4 : ip_route w_gateway = Some "192.168.1.1") by reflexivity.
  assert (H5 : "192.168.1.1" <> "") by discriminate.
  assert (H6 : request_header w_gateway "192.168.1.1" = Some AGENT_HEADER)
    by reflexivity.
  do 6 (split; [assumption|]).
  destruct (lookup_falls_back_to_gateway
              w_gateway e_lookup s_no_agent "localhost" 42699 "192.168.1.1"
              H1 H2 H3 H4 H5 H6) as (Hh & Hp & _).
  split; [exact Hh | exact Hp].
Defined.

Lemma lookup_stalls_when_resolution_raises_witness :
  __get_agent_host_port w_bad_port = Raise ValueError /\
  current (execute [(w_bad_port, Fire 0)] (__init__ fresh_agent)) = found /\
  started (execute [(w_bad_port, Fire 0)] (__init__ fresh_agent)) = [].
Proof.
  assert (H1 : __get_agent_host_port w_bad_port = Raise ValueError) by reflexivity.
  split; [exact H1|].
  destruct (lookup_stalls_when_resolution_raises w_bad_port fresh_agent ValueError H1)
    as (_ & Hc & Hs & _).
  split; [exact Hc | exact Hs].
Defined.

Lemma announce_answered_witness :
  snd (discovery w_agent_up s_agent_silent) = Ok d_plain /\
  truthy (request_response w_agent_up d_plain) = true /\
  current s_agent_silent = announced /\
  current (fst (announce_sensor w_agent_up e_announce s_agent_silent)) = good2go.
Proof.
  assert (Hd : snd (discovery w_agent_up s_agent_silent) = Ok d_plain)
    by (vm_compute; reflexivity).
  assert (Hb : truthy (request_response w_agent_up d_plain) = true) by reflexivity.
  assert (Hc : current s_agent_silent = announced) by reflexivity.
  do 3 (split; [assumption|]).
  destruct (announce_answered w_agent_up e_announce s_agent_silent d_plain Hd Hb)
    as (_ & _ & _ & _ & _ & Ha & _).
  exact (proj1 (proj2 (Ha Hc))).
Defined.

Lemma announce_raises_without_retry_witness :
  snd (announce_sensor w_socket_refused e_announce s_agent_silent) = Raise OSError /\
  started (fst (announce_sensor w_socket_refused e_announce s_agent_silent)) =
    started s_agent_silent.
Proof.
  assert (Hr : snd (announce_sensor w_socket_refused e_announce s_agent_silent)
               = Raise OSError) by (vm_compute; reflexivity).
  split; [exact Hr|].
  exact (proj1 (announce_raises_without_retry
                  w_socket_refused e_announce s_agent_silent OSError Hr)).
Defined.

Lemma announce_false_schedules_one_retry_witness :
  snd (announce_sensor w_agent_silent e_announce s_agent_silent) = Ok false /\
  current (fst (announce_sensor w_agent_silent e_announce s_agent_silent)) =
    current s_agent_silent.
Proof.
  assert (Hf : snd (announce_sensor w_agent_silent e_announce s_agent_silent)
               = Ok false) by (vm_compute; reflexivity).
  split; [exact Hf|].
  destruct (announce_false_schedules_one_retry
              w_agent_silent e_announce s_agent_silent Hf) as (_ & _ & Hc & _).
  exact Hc.
Defined.

Lemma startup_completes_handshake_witness :
  __get_agent_host_port w_agent_up = Ok ("localhost", 42699) /\
  request_header w_agent_up "localhost" = Some AGENT_HEADER /\
  snd (discovery w_agent_up (__init__ fresh_agent)) = Ok d_plain /\
  truthy (request_response w_agent_up d_plain) = true /\
  current (execute [(w_agent_up, Fire 0)] (__init__ fresh_agent)) = good2go.
Proof.
  assert (H1 : __get_agent_host_port w_agent_up = Ok ("localhost", 42699))
    by reflexivity.
  assert (H2 : request_header w_agent_up "localhost" = Some AGENT_HEADER)
    by reflexivity.
  assert (H3 : snd (discovery w_agent_up (__init__ fresh_agent)) = Ok d_plain)
    by (vm_compute; reflexivity).
  assert (H4 : truthy (request_response w_agent_up d_plain) = true) by reflexivity.
  do 4 (split; [assumption|]).
  exact (proj1 (startup_completes_handshake
                  w_agent_up fresh_agent "localhost" 42699 d_plain H1 H2 H3 H4)).
Defined.

Lemma one_timer_pending_without_reset_witness :
  no_reset [(w_no_agent, Fire 0); (w_agent_silent, Fire 0)] = true /\
  (length (started (execute [(w_no_agent, Fire 0); (w_agent_silent, Fire 0)]
                            (__init__ fresh_agent))) <= 1)%nat.
Proof.
  split; [reflexivity|].
  exact (one_timer_pending_without_reset
           fresh_agent [(w_no_agent, Fire 0); (w_agent_silent, Fire 0)] eq_refl).
Defined.

(** With a [reset] the bound is gone: a reset while the announce retry is
    pending leaves two timers pending. *)
Lemma two_timers_pending_after_reset :
  name <$> started (execute [(w_agent_silent, Fire 0); (w_no_agent, Reset)]
                            (__init__ fresh_agent)) = ["announce"; "agent_lookup"].
Proof. reflexivity. Qed.

Lemma get_agent_host_port_without_env_host_witness :
  os_environ w_port_only !! "INSTANA_AGENT_HOST" = None /\
  os_environ w_port_only !! "INSTANA_AGENT_IP" = None /\
  __get_agent_host_port w_port_only = Ok ("localhost", 42699).
Proof.
  split; [reflexivity|]. split; [reflexivity|].
  exact (get_agent_host_port_without_env_host w_port_only eq_refl eq_refl).
Defined.

Lemma get_real_pid_reads_sched_line_witness :
  proc_exists w_namespaced = true /\
  sched_line w_namespaced = Some (Some "python (12345, #threads: 1)") /\
  snd (__get_real_pid w_namespaced (__init__ fresh_agent)) = Ok 12345.
Proof.
  split; [reflexivity|]. split; [reflexivity|].
  refine (proj1 (get_real_pid_reads_sched_line
                   w_namespaced (__init__ fresh_agent)
                   "python (12345, #threads: 1)"
                   (list_ascii_of_string "python ") [1; 2; 3; 4; 5]%nat
                   (list_ascii_of_string " #threads: 1)")
                   eq_refl eq_refl eq_refl _ _ _)).
  - simpl. intros Hin.
    repeat (apply elem_of_cons in Hin as [Hin|Hin]; [discriminate Hin|]).
    now apply elem_of_nil in Hin.
  - discriminate.
  - repeat (apply Forall_cons; split; [lia|]). apply Forall_nil. exact I.
Defined.

Lemma read_cmdline_of_proc_witness :
  proc_self_cmdline w_gateway =
    Some (Some ("python" ++ String "000"%char ("app.py" ++ String "000"%char ""))) /\
  read_cmdline w_gateway (__init__ fresh_agent) =
    (__init__ fresh_agent, Ok ["python"; "app.py"; ""]).
Proof.
  split; [reflexivity|].
  refine (read_cmdline_of_proc
            w_gateway (__init__ fresh_agent) _
            [list_ascii_of_string "python"; list_ascii_of_string "app.py"]
            eq_refl eq_refl _).
  repeat (apply Forall_cons; split;
          [simpl; intros Hin;
           repeat (apply elem_of_cons in Hin as [Hin|Hin]; [discriminate Hin|]);
           now apply elem_of_nil in Hin|]).
  apply Forall_nil. exact I.
Defined.

Lemma read_cmdline_falls_back_witness :
  proc_self_cmdline w_no_agent = None /\ ps_output w_no_agent = None /\
  snd (read_cmdline w_no_agent (__init__ fresh_agent)) = Ok ["python"; "app.py"].
Proof.
  split; [reflexivity|]. split; [reflexivity|].
  assert (H : read_cmdline w_no_agent (__init__ fresh_agent) =
              (add_log DEBUG "announce_sensor" (__init__ fresh_agent),
               Ok (sys_argv w_no_agent))).
  { apply read_cmdline_falls_back. right. left. split; reflexivity. }
  rewrite H. reflexivity.
Defined.

(** On a host with /proc where nothing listens on port 42699 the startup
    run finds the agent, moves to [announced] and dies there: nothing was
    sent and no timer is pending. *)
Lemma socket_refused_stalls_in_announced :
  current (execute [(w_socket_refused, Fire 0)] (__init__ fresh_agent)) = announced /\
  started (execute [(w_socket_refused, Fire 0)] (__init__ fresh_agent)) = [] /\
  sent (execute [(w_socket_refused, Fire 0)] (__init__ fresh_agent)) = [].
Proof. repeat split; reflexivity. Qed.

Lemma reset_completes_handshake_witness :
  __get_agent_host_port w_agent_up = Ok ("localhost", 42699) /\
  request_header w_agent_up "localhost" = Some AGENT_HEADER /\
  snd (discovery w_agent_up s_agent_up) = Ok d_plain /\
  truthy (request_response w_agent_up d_plain) = true /\
  current s_agent_up <> found /\
  meter_runs (agent (fst (reset w_agent_up s_agent_up))) = [good2go; good2go].
Proof.
  assert (H1 : __get_agent_host_port w_agent_up = Ok ("localhost", 42699))
    by reflexivity.
  assert (H2 : request_header w_agent_up "localhost" = Some AGENT_HEADER)
    by reflexivity.
  assert (H3 : snd (discovery w_agent_up s_agent_up) = Ok d_plain)
    by (vm_compute; reflexivity).
  assert (H4 : truthy (request_response w_agent_up d_plain) = true) by reflexivity.
  assert (H5 : current s_agent_up <> found) by discriminate.
  do 5 (split; [assumption|]).
  destruct (reset_completes_handshake
              w_agent_up s_agent_up "localhost" 42699 d_plain H1 H2 H3 H4 H5)
    as (_ & _ & _ & _ & _ & Hm & _).
  rewrite Hm. reflexivity.
Defined.

Lemma discovery_object_socket_attributes_witness :
  snd (discovery w_agent_silent (__init__ fresh_agent)) = Ok d_plain /\
  proc_exists w_agent_silent = false /\
  d_plain !! "fd" = None /\ getattr d_plain "fd" = PyInt (-1).
Proof.
  assert (Hd : snd (discovery w_agent_silent (__init__ fresh_agent)) = Ok d_plain)
    by (vm_compute; reflexivity).
  split; [exact Hd|]. split; [reflexivity|].
  destruct (proj2 (discovery_object_socket_attributes
                     w_agent_silent e_announce (__init__ fresh_agent) d_plain Hd))
    as (_ & H1 & _ & H2 & _).
  split; [exact H1 | exact H2].
Defined.

End MoreScenarios.
